(** * Fallom TypeScript SDK: session context, sticky assignment, span attributes

    A shallow embedding of the parts of the SDK that carry its contracts:

    - [Js]        the JavaScript values the SDK inspects (typeof, truthiness,
                  property access, [String(...)]);
    - [Redaction] the two [JSON.stringify] replacers of [shared-utils];
    - [Template]  [replaceVariables] of the prompts module;
    - [Md5], [Crypto], [Assignment]  [hashSessionId], as a number and as
                  the calls it makes on a [Hash] object, and the weighted
                  variant walk;
    - [Trace]     module state of [trace], [init], [setSession],
                  [runWithSession], [getSession], [clearSession], [span];
    - [Reads]     the same runs with every result of [getSession] recorded;
    - [Lifecycle] sequences of [init], client calls and [shutdown];
    - [Async]     interleaved execution of several asynchronous call chains;
    - [Wrappers]  attribute construction of the Vercel AI SDK wrappers.

    Strings are Rocq strings: one character stands for one UTF-16 code unit
    below 256, so [String.length] is JavaScript's [.length].  Numbers are the
    integer-valued ones. *)

From Stdlib Require Import ZArith String Ascii List Bool Lia.
From stdpp Require Import base gmap strings list pretty.
Import ListNotations.

Local Open Scope string_scope.

(* ===================================================================== *)
(** ** JavaScript values *)
(* ===================================================================== *)

Module Js.

Local Set Warnings "-register-all".

(** The values that reach the SDK, as finite trees.  [VNum] is a number
    with an integer value; [VBytes] is a [Uint8Array] (or a Node [Buffer],
    which extends it); [VFun] is a native function object, as found on
    [Object.prototype]; an object is the list of its own enumerable string
    keys.  There is no BigInt and no object that contains itself, so every
    value here is one that [JSON.stringify] accepts.  Where a definition
    below covers a [JSON.stringify] that throws, the failure is given to it
    as a flag of its own ([TraceMore.sendSpan], [Wrappers.Stream]). *)
Inductive value : Type :=
| VUndefined
| VNull
| VBool (b : bool)
| VNum (n : Z)
| VStr (s : string)
| VArr (items : list value)
| VObj (fields : list (string * value))
| VBytes (bytes : list Z)
| VFun (name : string).

(** [typeof v] *)
Definition typeof (v : value) : string :=
  match v with
  | VUndefined => "undefined"
  | VNull => "object"
  | VBool _ => "boolean"
  | VNum _ => "number"
  | VStr _ => "string"
  | VArr _ | VObj _ | VBytes _ => "object"
  | VFun _ => "function"
  end.

(** [Array.isArray(v)] *)
Definition isArray (v : value) : bool :=
  match v with VArr _ => true | _ => false end.

(** [v instanceof Uint8Array] *)
Definition instanceofUint8Array (v : value) : bool :=
  match v with VBytes _ => true | _ => false end.

(** Truthiness, as used by [if], [||], [&&], [!] and [?:]. *)
Definition truthy (v : value) : bool :=
  match v with
  | VUndefined | VNull => false
  | VBool b => b
  | VNum n => negb (n =? 0)%Z
  | VStr s => negb (String.eqb s "")
  | VArr _ | VObj _ | VBytes _ | VFun _ => true
  end.

(** Own property of an object literal, first binding of the key. *)
Fixpoint assoc (k : string) (fs : list (string * value)) : option value :=
  match fs with
  | [] => None
  | (k', v) :: fs' => if String.eqb k k' then Some v else assoc k fs'
  end.

(** [v?.k] for the property names the SDK reads ([type], [usage], [model],
    ...): [undefined] on [null]/[undefined], the own property of an object,
    and [undefined] on every other value, none of which defines them. *)
Definition get (v : value) (k : string) : value :=
  match v with
  | VObj fs => default VUndefined (assoc k fs)
  | _ => VUndefined
  end.

(** [a || b] *)
Definition or (a b : value) : value := if truthy a then a else b.

(** [`${n}`] for a length *)
Definition showN (n : N) : string := pretty n.

(** [Array.prototype.join] over already converted items *)
Fixpoint join (sep : string) (l : list string) : string :=
  match l with
  | [] => ""
  | [x] => x
  | x :: rest => x ++ sep ++ join sep rest
  end.

(** [String(v)] on the values that are [printable] below.  Inside an
    array, [null] and [undefined] print as the empty string; a
    [Uint8Array] prints like an array of its numbers; an object prints
    through [Object.prototype.toString]. *)
Fixpoint toString (v : value) : string :=
  match v with
  | VUndefined => "undefined"
  | VNull => "null"
  | VBool true => "true"
  | VBool false => "false"
  | VNum n => pretty n
  | VStr s => s
  | VArr items =>
      join "," (map (fun x => match x with
                              | VUndefined | VNull => ""
                              | _ => toString x
                              end) items)
  | VObj _ => "[object Object]"
  | VBytes bs => join "," (map (fun b : Z => pretty b) bs)
  | VFun name => "function " ++ name ++ "() { [native code] }"
  end.

(** Where [toString] is [String(v)]: a number must be a safe integer (its
    decimal digits are then what JavaScript prints; from 1e21 on it prints
    an exponent), and an object must not have a [toString] of its own, which
    [String] would call, or fail on when it is not callable.  The same holds
    for the items of an array.  Typed arrays are left out: a [Buffer] prints
    as the text it encodes, not as its numbers. *)
Fixpoint printable (v : value) : bool :=
  match v with
  | VUndefined | VNull | VBool _ | VStr _ | VFun _ => true
  | VNum n => (Z.abs n <=? 9007199254740991)%Z
  | VArr items => forallb printable items
  | VObj fields =>
      match assoc "toString" fields with Some _ => false | None => true end
  | VBytes _ => false
  end.

(** [s.startsWith(p)] *)
Definition startsWith (s p : string) : bool := String.prefix p s.

(** [s.length] *)
Definition strlen (s : string) : N := N.of_nat (String.length s).

(** [a.length] of an array *)
Definition arrlen (items : list value) : N := N.of_nat (List.length items).

End Js.

(* ===================================================================== *)
(** ** Redaction: the two JSON.stringify replacers *)
(* ===================================================================== *)

Module Redaction.
Import Js.

(** [value && value.type === "Buffer"]: the shape a [Buffer] has once
    [JSON.stringify] has called its [toJSON]. *)
Definition isBufferJson (v : value) : bool :=
  truthy v &&
  match get v "type" with VStr t => String.eqb t "Buffer" | _ => false end.

Definition isBinary (v : value) : bool :=
  instanceofUint8Array v || isBufferJson v.

(** [sanitizeForLogging(key, value)] *)
Definition sanitizeForLogging (key : string) (v : value) : value :=
  if String.eqb key "rawResponse" || String.eqb key "rawCall" then
    VStr "[omitted]"
  else
    match v with
    | VStr s =>
        if startsWith s "data:image/" then VStr "[base64 image omitted]"
        else if (10000 <? strlen s)%N then
          VStr ("[large string omitted: " ++ showN (strlen s) ++ " chars]")
        else v
    | _ => if isBinary v then VStr "[binary data omitted]" else v
    end.

Definition contentKeys : list string :=
  [ "text"; "content"; "message"; "messages"; "object"; "prompt"; "system";
    "input"; "output"; "response"; "toolCalls"; "toolResults"; "steps";
    "reasoning"; "rawResponse"; "rawCall"; "body"; "candidates"; "parts" ].

(** [contentKeys.includes(key)] *)
Definition includes (l : list string) (k : string) : bool :=
  existsb (String.eqb k) l.

(** The block guarded by [contentKeys.includes(key)]: [Some] placeholder
    when one of its three [return]s fires, [None] when control falls out of
    the block. *)
Definition contentPlaceholder (v : value) : option value :=
  match v with
  | VStr s => Some (VStr ("[content omitted: " ++ showN (strlen s) ++ " chars]"))
  | VArr items =>
      Some (VStr ("[content omitted: " ++ showN (arrlen items) ++ " items]"))
  | VObj _ | VBytes _ => Some (VStr "[content omitted]")
  | VUndefined | VNull | VBool _ | VNum _ | VFun _ => None
  end.

(** The rest of [sanitizeMetadataOnly], after the denylist block. *)
Definition metadataGeneral (v : value) : value :=
  match v with
  | VStr s =>
      if startsWith s "data:image/" then VStr "[base64 image omitted]"
      else if (1000 <? strlen s)%N then
        VStr ("[large string omitted: " ++ showN (strlen s) ++ " chars]")
      else v
  | _ => if isBinary v then VStr "[binary data omitted]" else v
  end.

(** [sanitizeMetadataOnly(key, value)] *)
Definition sanitizeMetadataOnly (key : string) (v : value) : value :=
  if includes contentKeys key then
    match contentPlaceholder v with
    | Some p => p
    | None => metadataGeneral v
    end
  else metadataGeneral v.

(** A string of [n] copies of [c], for examples. *)
Fixpoint repeatChar (n : nat) (c : ascii) : string :=
  match n with O => "" | S n' => String c (repeatChar n' c) end.

Definition replicateStr (n : N) (c : ascii) : string :=
  repeatChar (N.to_nat n) c.

(** The field names the specification lists for the denylist. *)
Definition listedNames : list string :=
  [ "text"; "content"; "message"; "messages"; "object"; "prompt"; "system";
    "input"; "output"; "response"; "toolCalls"; "toolResults"; "steps";
    "reasoning"; "body"; "candidates"; "parts" ].

End Redaction.

(* ===================================================================== *)
(** ** Sizes the engine allows *)
(* ===================================================================== *)

Module Limits.
Import Js.

(** No string or array of the engine is longer than [2^53 - 1]. *)
Definition maxLength : N := 2 ^ 53 - 1.

Definition withinLimits (v : value) : Prop :=
  match v with
  | VStr s => (strlen s <= maxLength)%N
  | VArr items => (arrlen items <= maxLength)%N
  | _ => True
  end.

(** The result is no string, or a string of at most [bound] characters
    that is not an inline image. *)
Definition tame (bound : N) (v : value) : Prop :=
  match v with
  | VStr r => (strlen r <= bound)%N /\ startsWith r "data:image/" = false
  | _ => True
  end.

End Limits.

(* ===================================================================== *)
(** ** Prompt templates: replaceVariables *)
(* ===================================================================== *)

Module Template.
Import Js.

(** The properties every object literal inherits from [Object.prototype];
    [__proto__] reads back the prototype object itself. *)
Definition objectPrototype : list (string * value) :=
  [ ("constructor", VFun "Object");
    ("__defineGetter__", VFun "__defineGetter__");
    ("__defineSetter__", VFun "__defineSetter__");
    ("hasOwnProperty", VFun "hasOwnProperty");
    ("__lookupGetter__", VFun "__lookupGetter__");
    ("__lookupSetter__", VFun "__lookupSetter__");
    ("isPrototypeOf", VFun "isPrototypeOf");
    ("propertyIsEnumerable", VFun "propertyIsEnumerable");
    ("toString", VFun "toString");
    ("valueOf", VFun "valueOf");
    ("__proto__", VObj []);
    ("toLocaleString", VFun "toLocaleString") ].

(** A [Record<string, unknown>]: its own properties; its prototype is
    [Object.prototype]. *)
Abbreviation record := (gmap string value).

(** [key in variables]: own or inherited. *)
Definition hasProperty (variables : record) (key : string) : bool :=
  match variables !! key with
  | Some _ => true
  | None => match assoc key objectPrototype with
            | Some _ => true
            | None => false
            end
  end.

(** [variables[key]] *)
Definition getProperty (variables : record) (key : string) : value :=
  match variables !! key with
  | Some v => v
  | None => default VUndefined (assoc key objectPrototype)
  end.

Definition code (c : ascii) : N := N_of_ascii c.

(** [\s] on code units below 256: TAB, LF, VT, FF, CR, SP, NBSP. *)
Definition isSpace (c : ascii) : bool :=
  let n := code c in
  ((9 <=? n) && (n <=? 13) || (n =? 32) || (n =? 160))%N.

(** [\w]: ASCII letters, digits and the underscore. *)
Definition isWord (c : ascii) : bool :=
  let n := code c in
  ((65 <=? n) && (n <=? 90) || (97 <=? n) && (n <=? 122)
   || (48 <=? n) && (n <=? 57) || (n =? 95))%N.

(** The longest prefix of [s] whose characters satisfy [p], and the rest. *)
Fixpoint spanStr (p : ascii -> bool) (s : string) : string * string :=
  match s with
  | EmptyString => ("", "")
  | String c rest =>
      if p c then let '(a, b) := spanStr p rest in (String c a, b)
      else ("", s)
  end.

(** One attempt of the placeholder pattern at the start of [s]: two opening
    braces, a captured group of optional white space, one or more word
    characters and optional white space, two closing braces.  Returns the
    capture and the length of the match.  The three classes [\s], [\w] and the brace
    are pairwise disjoint, so the greedy runs are the only way to match and
    no backtracking is involved. *)
Definition matchPlaceholder (s : string) : option (string * nat) :=
  match s with
  | String "{"%char (String "{"%char r) =>
      let '(ws1, r1) := spanStr isSpace r in
      let '(w, r2) := spanStr isWord r1 in
      let '(ws2, r3) := spanStr isSpace r2 in
      match w, r3 with
      | String _ _, String "}"%char (String "}"%char _) =>
          let varName := ws1 ++ w ++ ws2 in
          Some (varName, 2 + String.length varName + 2)
      | _, _ => None
      end
  | _ => None
  end.

(** [s.trimStart()], [s.trimEnd()], [s.trim()] *)
Fixpoint trimStart (s : string) : string :=
  match s with
  | String c rest => if isSpace c then trimStart rest else s
  | EmptyString => ""
  end.

Fixpoint trimEnd (s : string) : string :=
  match s with
  | EmptyString => ""
  | String c rest =>
      match trimEnd rest with
      | EmptyString => if isSpace c then "" else String c ""
      | r => String c r
      end
  end.

Definition trim (s : string) : string := trimEnd (trimStart s).

(** The replacement callback [(match, varName) => ...] *)
Definition replacer (variables : record) (mtch varName : string) : string :=
  let key := trim varName in
  if hasProperty variables key then toString (getProperty variables key)
  else mtch.

(** [template.replace(re, cb)] with the global flag: matches are tried left
    to right and do not overlap; [skip] counts the characters of the current
    match that are still to be passed over. *)
Fixpoint replaceFrom (variables : record) (s : string) (skip : nat) : string :=
  match s with
  | EmptyString => ""
  | String c rest =>
      match skip with
      | S k => replaceFrom variables rest k
      | O =>
          match matchPlaceholder s with
          | Some (varName, len) =>
              replacer variables ("{{" ++ varName ++ "}}") varName
              ++ replaceFrom variables rest (len - 1)
          | None => String c (replaceFrom variables rest 0)
          end
      end
  end.

(** [replaceVariables(template, variables)]; [None] is [undefined]. *)
Definition replaceVariables (template : string) (variables : option record)
  : string :=
  match variables with
  | None => template
  | Some vars => replaceFrom vars template 0
  end.

(** Every character of [s] satisfies [p]. *)
Fixpoint allChars (p : ascii -> bool) (s : string) : bool :=
  match s with
  | EmptyString => true
  | String c rest => p c && allChars p rest
  end.

(** [s] is empty or starts with a character that fails [p]. *)
Definition stopsAt (p : ascii -> bool) (s : string) : Prop :=
  match s with
  | EmptyString => True
  | String c _ => p c = false
  end.

Definition isOpenBrace (c : ascii) : bool := (code c =? 123)%N.

End Template.

(* ===================================================================== *)
(** ** MD5 and hashSessionId *)
(* ===================================================================== *)

Module Md5.

Local Open Scope Z_scope.

(** Bytes and 32-bit words are integers, with the wrap-around written out. *)
Definition wrap32 (x : Z) : Z := x mod 2 ^ 32.

Definition rotl32 (x c : Z) : Z :=
  wrap32 (Z.lor (Z.shiftl x c) (Z.shiftr x (32 - c))).

Definition not32 (x : Z) : Z := Z.lxor x 0xFFFFFFFF.

Definition shifts : list Z :=
  [ 7; 12; 17; 22; 7; 12; 17; 22; 7; 12; 17; 22; 7; 12; 17; 22;
    5; 9; 14; 20; 5; 9; 14; 20; 5; 9; 14; 20; 5; 9; 14; 20;
    4; 11; 16; 23; 4; 11; 16; 23; 4; 11; 16; 23; 4; 11; 16; 23;
    6; 10; 15; 21; 6; 10; 15; 21; 6; 10; 15; 21; 6; 10; 15; 21 ].

Definition sines : list Z :=
  [ 0xd76aa478; 0xe8c7b756; 0x242070db; 0xc1bdceee;
    0xf57c0faf; 0x4787c62a; 0xa8304613; 0xfd469501;
    0x698098d8; 0x8b44f7af; 0xffff5bb1; 0x895cd7be;
    0x6b901122; 0xfd987193; 0xa679438e; 0x49b40821;
    0xf61e2562; 0xc040b340; 0x265e5a51; 0xe9b6c7aa;
    0xd62f105d; 0x02441453; 0xd8a1e681; 0xe7d3fbc8;
    0x21e1cde6; 0xc33707d6; 0xf4d50d87; 0x455a14ed;
    0xa9e3e905; 0xfcefa3f8; 0x676f02d9; 0x8d2a4c8a;
    0xfffa3942; 0x8771f681; 0x6d9d6122; 0xfde5380c;
    0xa4beea44; 0x4bdecfa9; 0xf6bb4b60; 0xbebfbc70;
    0x289b7ec6; 0xeaa127fa; 0xd4ef3085; 0x04881d05;
    0xd9d4d039; 0xe6db99e5; 0x1fa27cf8; 0xc4ac5665;
    0xf4292244; 0x432aff97; 0xab9423a7; 0xfc93a039;
    0x655b59c3; 0x8f0ccc92; 0xffeff47d; 0x85845dd1;
    0x6fa87e4f; 0xfe2ce6e0; 0xa3014314; 0x4e0811a1;
    0xf7537e82; 0xbd3af235; 0x2ad7d2bb; 0xeb86d391 ].

(** [n] as [k] little-endian bytes *)
Fixpoint bytesLE (k : nat) (n : Z) : list Z :=
  match k with
  | O => []
  | S k' => (n mod 256) :: bytesLE k' (n / 256)
  end.

(** A little-endian 32-bit word from four bytes *)
Definition wordLE (b0 b1 b2 b3 : Z) : Z :=
  b0 + 256 * (b1 + 256 * (b2 + 256 * b3)).

Fixpoint wordsLE (bs : list Z) : list Z :=
  match bs with
  | b0 :: b1 :: b2 :: b3 :: rest => wordLE b0 b1 b2 b3 :: wordsLE rest
  | _ => []
  end.

(** The message followed by the 1 bit, zeros up to 56 modulo 64, and the bit
    length on 64 bits. *)
Definition pad (msg : list Z) : list Z :=
  let len := Z.of_nat (List.length msg) in
  let zeros := (55 - len) mod 64 in
  msg ++ [0x80] ++ repeat 0 (Z.to_nat zeros) ++ bytesLE 8 (8 * len mod 2 ^ 64).

Record state := { regA : Z; regB : Z; regC : Z; regD : Z }.

Definition initial : state :=
  {| regA := 0x67452301; regB := 0xefcdab89;
     regC := 0x98badcfe; regD := 0x10325476 |}.

(** One of the 64 operations on the block [m]. *)
Definition step (m : list Z) (st : state) (i : Z) : state :=
  let '(Build_state a b c d) := st in
  let '(f, g) :=
    if i <? 16 then (Z.lor (Z.land b c) (Z.land (not32 b) d), i)
    else if i <? 32 then
      (Z.lor (Z.land d b) (Z.land (not32 d) c), (5 * i + 1) mod 16)
    else if i <? 48 then (Z.lxor b (Z.lxor c d), (3 * i + 5) mod 16)
    else (Z.lxor c (Z.lor b (not32 d)), (7 * i) mod 16) in
  let f' := wrap32 (f + a + nth (Z.to_nat i) sines 0 + nth (Z.to_nat g) m 0) in
  {| regA := d; regD := c; regC := b;
     regB := wrap32 (b + rotl32 f' (nth (Z.to_nat i) shifts 0)) |}.

Definition rounds : list Z := map Z.of_nat (seq 0 64).

(** One 64-byte block folded into the running state. *)
Definition block (st : state) (bytes : list Z) : state :=
  let r := fold_left (step (wordsLE bytes)) rounds st in
  {| regA := wrap32 (regA st + regA r); regB := wrap32 (regB st + regB r);
     regC := wrap32 (regC st + regC r); regD := wrap32 (regD st + regD r) |}.

Fixpoint blocks (n : nat) (st : state) (bytes : list Z) : state :=
  match n with
  | O => st
  | S n' => blocks n' (block st (firstn 64 bytes)) (skipn 64 bytes)
  end.

(** The 16-byte digest of a byte string. *)
Definition md5 (msg : list Z) : list Z :=
  let p := pad msg in
  let st := blocks (List.length p / 64) initial p in
  bytesLE 4 (regA st) ++ bytesLE 4 (regB st)
  ++ bytesLE 4 (regC st) ++ bytesLE 4 (regD st).

(** The UTF-8 bytes of a string of code units below 256, as
    [hash.update(str)] feeds them to the digest. *)
Fixpoint utf8 (s : string) : list Z :=
  match s with
  | EmptyString => []
  | String c rest =>
      let n := Z.of_N (N_of_ascii c) in
      if n <? 128 then n :: utf8 rest
      else Z.lor 0xC0 (Z.shiftr n 6) :: Z.lor 0x80 (Z.land n 0x3F) :: utf8 rest
  end.

(** [buf.readUInt32BE(0)] on a buffer of at least four bytes *)
Definition readUInt32BE (buf : list Z) : Z :=
  match buf with
  | b0 :: b1 :: b2 :: b3 :: _ => ((b0 * 256 + b1) * 256 + b2) * 256 + b3
  | _ => 0
  end.

(** [hashSessionId(sessionId)] *)
Definition hashSessionId (sessionId : string) : Z :=
  let hashBytes := md5 (utf8 sessionId) in
  readUInt32BE hashBytes mod 1000000.

End Md5.

(* ===================================================================== *)
(** ** Bytes *)
(* ===================================================================== *)

Module Bytes.

Definition isByte (b : Z) : Prop := (0 <= b < 256)%Z.

End Bytes.

(* ===================================================================== *)
(** ** Node's crypto module, call by call *)
(* ===================================================================== *)

Module Crypto.
Import Md5.

Local Open Scope Z_scope.

(** A [Hash] object: its algorithm, the bytes fed to it so far, and whether
    [digest] has been called on it. *)
Record Hash := { algorithm : string; fed : list Z; finalized : bool }.

(** What a call can reach of the process it runs in: the wall clock
    ([Date.now()]), the process id ([process.pid]) and the [Hash] objects
    created so far, each addressed by its position, so that a write through
    one reference is seen through every other one. *)
Record Runtime := { now : Z; pid : Z; hashes : list Hash }.

Definition withHashes (r : Runtime) (hs : list Hash) : Runtime :=
  {| now := now r; pid := pid r; hashes := hs |}.

(** [createHash(algorithm)]: a new object, with nothing fed to it. *)
Definition createHash (alg : string) (r : Runtime) : nat * Runtime :=
  (List.length (hashes r),
   withHashes r
     (hashes r ++ [{| algorithm := alg; fed := []; finalized := false |}])).

(** [hash.update(data)] with a string: its UTF-8 bytes are appended to what
    the object was fed; the call returns the object.  [None] is the error
    thrown once [digest] has been called. *)
Definition update (h : nat) (data : string) (r : Runtime) : option Runtime :=
  match hashes r !! h with
  | Some o =>
      if finalized o then None
      else Some (withHashes r
                   (<[h := {| algorithm := algorithm o;
                              fed := fed o ++ utf8 data;
                              finalized := false |}]> (hashes r)))
  | None => None
  end.

(** [hash.digest()]: the digest of everything the object was fed, as a
    [Buffer]; the object cannot be used again.  [None] is the error thrown
    on a second call; of the algorithms only MD5 is given. *)
Definition digest (h : nat) (r : Runtime) : option (list Z) * Runtime :=
  match hashes r !! h with
  | Some o =>
      if finalized o || negb (String.eqb (algorithm o) "md5") then (None, r)
      else (Some (md5 (fed o)),
            withHashes r
              (<[h := {| algorithm := algorithm o; fed := fed o;
                         finalized := true |}]> (hashes r)))
  | None => (None, r)
  end.

(** [hashSessionId(sessionId)] as the calls it makes in a runtime; [None]
    is an exception.  [Md5.hashSessionId] is the number it returns. *)
Definition hashSessionId (sessionId : string) (r : Runtime)
  : option Z * Runtime :=
  let '(h, r1) := createHash "md5" r in
  match update h sessionId r1 with
  | None => (None, r1)
  | Some r2 =>
      match digest h r2 with
      | (Some hashBytes, r3) =>
          (Some (readUInt32BE hashBytes mod 1000000), r3)
      | (None, r3) => (None, r3)
      end
  end.

End Crypto.

(* ===================================================================== *)
(** ** Sticky assignment *)
(* ===================================================================== *)

Module Assignment.
Import Md5.

Local Open Scope Z_scope.

(** Modelled from the spec: the assignment engine itself ([models.get],
    [prompts.getAB]) is not among the sources, only [hashSessionId] is.  A
    Variant has an index, a positive integer weight and an opaque payload. *)
Record Variant := { variantIndex : Z; weight : Z; payload : string }.

(** Modelled from the spec: a configuration snapshot is an ordered list of
    Variants, with the version it was published as. *)
Record Snapshot := { version : Z; variants : list Variant }.

(** Modelled from the spec: the resolved payload, the variant index and
    version when the real distribution was used, and the fallback flag. *)
Record AssignmentResult := {
  resolvedPayload : string;
  resolvedIndex : option Z;
  resolvedVersion : option Z;
  fromFallback : bool
}.

(** Modelled from the spec: the fixed resolution [R]; it is the modulus of
    [hashSessionId]. *)
Definition resolution : Z := 1000000.

(** Modelled from the spec: the weight sum of a snapshot. *)
Definition totalWeight (vs : list Variant) : Z :=
  fold_right (fun v acc => weight v + acc) 0 vs.

(** Modelled from the spec: step 3 of the algorithm.  The variants are
    walked in order, accumulating weight; the first one whose cumulative
    weight, normalized against [total] and scaled to [R], exceeds the bucket
    [b] is selected, which is [b / R < cumulative / total] without rounding. *)
Fixpoint select (b total cumulative : Z) (vs : list Variant) : option Variant :=
  match vs with
  | [] => None
  | v :: rest =>
      let cumulative' := cumulative + weight v in
      if b * total <? cumulative' * resolution then Some v
      else select b total cumulative' rest
  end.

(** Modelled from the spec: the fallback result of step 5. *)
Definition fallbackResult (fallback : string) : AssignmentResult :=
  {| resolvedPayload := fallback; resolvedIndex := None;
     resolvedVersion := None; fromFallback := true |}.

(** Modelled from the spec: steps 3 and 5 for a bucket and a snapshot
    ([None] when the snapshot is unavailable). *)
Definition resolve (b : Z) (snapshot : option Snapshot) (fallback : string)
  : AssignmentResult :=
  match snapshot with
  | None => fallbackResult fallback
  | Some snap =>
      match select b (totalWeight (variants snap)) 0 (variants snap) with
      | Some v =>
          {| resolvedPayload := payload v;
             resolvedIndex := Some (variantIndex v);
             resolvedVersion := Some (version snap);
             fromFallback := false |}
      | None => fallbackResult fallback
      end
  end.

(** Modelled from the spec: the assignment as a function of the subject id
    and the snapshot.  The bucket of steps 1 and 2 is [hashSessionId], from
    the source. *)
Definition assign (subject : string) (snapshot : option Snapshot)
    (fallback : string) : AssignmentResult :=
  resolve (hashSessionId subject) snapshot fallback.

(** Modelled from the spec: a call of the assignment function made in a
    runtime.  Steps 1 and 2 are the call of [hashSessionId] made there, with
    the [Hash] object it creates and writes; steps 3 and 5 follow.  [None]
    is an exception of the hashing. *)
Definition assignIn (subject : string) (snapshot : option Snapshot)
    (fallback : string) (r : Crypto.Runtime)
  : option AssignmentResult * Crypto.Runtime :=
  match Crypto.hashSessionId subject r with
  | (Some b, r') => (Some (resolve b snapshot fallback), r')
  | (None, r') => (None, r')
  end.

(** Values used in the examples: a runtime in which another digest is
    under way. *)
Definition busy : Crypto.Runtime :=
  {| Crypto.now := 1700000000000; Crypto.pid := 4242;
     Crypto.hashes :=
       [ {| Crypto.algorithm := "md5"; Crypto.fed := utf8 "user-123";
            Crypto.finalized := false |} ] |}.

Definition idle : Crypto.Runtime :=
  {| Crypto.now := 0; Crypto.pid := 1; Crypto.hashes := [] |}.

Definition twoModels : Snapshot :=
  {| version := 3;
     variants := [ {| variantIndex := 0; weight := 50; payload := "gpt-4o" |};
                   {| variantIndex := 1; weight := 50;
                      payload := "claude-3-5-sonnet" |} ] |}.

End Assignment.

(* ===================================================================== *)
(** ** The trace module: state, init, session context, span *)
(* ===================================================================== *)

Module Trace.
Import Js.

Record SessionContext := { configKey : string; sessionId : string }.

(** The part of [process.env] and of the installation that [init] reads. *)
Record Env := {
  FALLOM_API_KEY : option string;
  FALLOM_BASE_URL : option string;
  FALLOM_CAPTURE_CONTENT : option string;
  traceloopInstalled : bool
}.

(** The argument of [init]; [None] is a property left out. *)
Record InitOptions := {
  optApiKey : option string;
  optBaseUrl : option string;
  optCaptureContent : option bool
}.

(** What [new OTLPTraceExporter] and [new NodeSDK] were given. *)
Record Sdk := { exporterUrl : string; exporterAuthorization : string }.

(** What [Traceloop.initialize] was given. *)
Record TraceloopConfig := {
  tlBaseUrl : string; tlApiKey : string;
  tlDisableBatch : bool; tlTraceContent : bool
}.

(** A request handed to [fetch] by [sendSpan]. *)
Record Request := {
  reqUrl : string;
  reqAuthorization : string;
  reqConfigKey : string;
  reqSessionId : string;
  reqData : list (string * value)
}.

(** The module-level variables, the store objects created by
    [sessionStorage.run] (a store is addressed by its position, so that a
    mutation through one reference is seen through every other one), and
    the requests sent so far. *)
Record World := {
  stores : list SessionContext;
  fallbackSession : option SessionContext;
  apiKey : option string;
  baseUrl : string;
  initialized : bool;
  captureContent : bool;
  sdk : option Sdk;
  traceloop : option TraceloopConfig;
  sigtermHandlers : nat;
  outbox : list Request
}.

(** The state of a freshly loaded module. *)
Definition loaded : World :=
  {| stores := []; fallbackSession := None; apiKey := None;
     baseUrl := "https://spans.fallom.com"; initialized := false;
     captureContent := true; sdk := None; traceloop := None;
     sigtermHandlers := 0; outbox := [] |}.

Definition withStores (w : World) (s : list SessionContext) : World :=
  {| stores := s; fallbackSession := fallbackSession w; apiKey := apiKey w;
     baseUrl := baseUrl w; initialized := initialized w;
     captureContent := captureContent w; sdk := sdk w;
     traceloop := traceloop w; sigtermHandlers := sigtermHandlers w;
     outbox := outbox w |}.

Definition withFallback (w : World) (f : option SessionContext) : World :=
  {| stores := stores w; fallbackSession := f; apiKey := apiKey w;
     baseUrl := baseUrl w; initialized := initialized w;
     captureContent := captureContent w; sdk := sdk w;
     traceloop := traceloop w; sigtermHandlers := sigtermHandlers w;
     outbox := outbox w |}.

Definition withOutbox (w : World) (o : list Request) : World :=
  {| stores := stores w; fallbackSession := fallbackSession w;
     apiKey := apiKey w; baseUrl := baseUrl w; initialized := initialized w;
     captureContent := captureContent w; sdk := sdk w;
     traceloop := traceloop w; sigtermHandlers := sigtermHandlers w;
     outbox := o |}.

(** How a call ends. *)
Inductive outcome : Type :=
| Normal
| Threw (message : string).

(** [a || b] on optional strings: the empty string is falsy, so is a
    missing one; [orStr a None] is [None] exactly when [!a]. *)
Definition orStr (a b : option string) : option string :=
  match a with
  | Some s => if String.eqb s "" then b else Some s
  | None => b
  end.

(** [c.toLowerCase()] on one code unit below 256 *)
Definition lowerChar (c : ascii) : ascii :=
  let n := N_of_ascii c in
  if ((65 <=? n) && (n <=? 90)
      || (192 <=? n) && (n <=? 222) && negb (n =? 215))%N
  then ascii_of_N (n + 32) else c.

Fixpoint toLowerCase (s : string) : string :=
  match s with
  | EmptyString => ""
  | String c rest => String (lowerChar c) (toLowerCase rest)
  end.

Definition noApiKeyMessage : string :=
  "No API key provided. Set FALLOM_API_KEY environment variable or pass apiKey parameter.".

(** [trace.init(options)] *)
Definition init (options : InitOptions) (env : Env) (w : World)
  : outcome * World :=
  if initialized w then (Normal, w)
  else
    let apiKey' := orStr (optApiKey options) (orStr (FALLOM_API_KEY env) None) in
    let baseUrl' :=
      default "https://spans.fallom.com"
        (orStr (optBaseUrl options)
           (orStr (FALLOM_BASE_URL env) (Some "https://spans.fallom.com"))) in
    let envCapture := toLowerCase <$> FALLOM_CAPTURE_CONTENT env in
    let captureContent' :=
      match envCapture with
      | Some e =>
          if String.eqb e "false" || String.eqb e "0" || String.eqb e "no"
          then false
          else default true (optCaptureContent options)
      | None => default true (optCaptureContent options)
      end in
    match apiKey' with
    | None =>
        (Threw noApiKeyMessage,
         {| stores := stores w; fallbackSession := fallbackSession w;
            apiKey := None; baseUrl := baseUrl';
            initialized := false; captureContent := captureContent';
            sdk := sdk w; traceloop := traceloop w;
            sigtermHandlers := sigtermHandlers w; outbox := outbox w |})
    | Some key =>
        (Normal,
         {| stores := stores w; fallbackSession := fallbackSession w;
            apiKey := Some key; baseUrl := baseUrl';
            initialized := true; captureContent := captureContent';
            sdk := Some {| exporterUrl := baseUrl' ++ "/v1/traces";
                           exporterAuthorization := "Bearer " ++ key |};
            traceloop :=
              if traceloopInstalled env then
                Some {| tlBaseUrl := baseUrl' ++ "/v1/traces"; tlApiKey := key;
                        tlDisableBatch := false;
                        tlTraceContent := captureContent' |}
              else traceloop w;
            sigtermHandlers := S (sigtermHandlers w); outbox := outbox w |})
    end.

(** The ambient store of the running call chain: [None] outside every
    [runWithSession], otherwise the address of the store object. *)
Definition ambient := option nat.

(** [sessionStorage.getStore()] *)
Definition getStore (amb : ambient) (w : World) : option SessionContext :=
  match amb with
  | Some l => stores w !! l
  | None => None
  end.

(** [setSession(configKey, sessionId)] *)
Definition setSession (amb : ambient) (ck sid : string) (w : World) : World :=
  let ctx := {| configKey := ck; sessionId := sid |} in
  let w1 :=
    match amb with
    | Some l =>
        match stores w !! l with
        | Some _ => withStores w (<[l := ctx]> (stores w))
        | None => w
        end
    | None => w
    end in
  withFallback w1 (Some ctx).

(** [getSession()]; [None] is [undefined]. *)
Definition getSession (amb : ambient) (w : World) : option SessionContext :=
  match getStore amb w with
  | Some ctx => Some ctx
  | None => fallbackSession w
  end.

(** [clearSession()] *)
Definition clearSession (w : World) : World := withFallback w None.

(** The store object created by [runWithSession(configKey, sessionId, fn)],
    and its address. *)
Definition enter (ck sid : string) (w : World) : nat * World :=
  (List.length (stores w),
   withStores w (stores w ++ [{| configKey := ck; sessionId := sid |}])).

(** [runWithSession(configKey, sessionId, fn)]: [sessionStorage.run]
    calls [fn] with the new store as the ambient one and returns what it
    returns. *)
Definition runWithSession {T : Type} (ck sid : string)
    (fn : ambient -> World -> T) (w : World) : T :=
  let '(l, w1) := enter ck sid w in fn (Some l) w1.

(** The second argument of [span]. *)
Record SpanOptions := {
  spanConfigKey : option string;
  spanSessionId : option string
}.

Definition noOptions : SpanOptions :=
  {| spanConfigKey := None; spanSessionId := None |}.

Definition notInitializedMessage : string :=
  "Fallom not initialized. Call trace.init() first.".

Definition noSessionMessage : string :=
  "No session context. Either call setSession() first, or pass configKey and sessionId explicitly.".

(** [span(data, options)]: the request of [sendSpan] is issued before
    [span] returns; what happens to it afterwards is not observed.  The
    data is a [value], so its serialization in [sendSpan] does not throw. *)
Definition span (data : list (string * value)) (options : SpanOptions)
    (amb : ambient) (w : World) : outcome * World :=
  if negb (initialized w) then (Threw notInitializedMessage, w)
  else
    let ctx := getSession amb w in
    let ck := orStr (spanConfigKey options) (orStr (configKey <$> ctx) None) in
    let sid := orStr (spanSessionId options) (orStr (sessionId <$> ctx) None) in
    match ck, sid with
    | Some ck', Some sid' =>
        (Normal,
         withOutbox w
           (outbox w ++
            [{| reqUrl := baseUrl w ++ "/spans";
                reqAuthorization := "Bearer " ++ default "null" (apiKey w);
                reqConfigKey := ck'; reqSessionId := sid';
                reqData := data |}]))
    | _, _ => (Threw noSessionMessage, w)
    end.

(** Client code of the context store, as the sequence of calls it makes.
    [GetSession] hands the rest of the program the two fields the returned
    object holds when the call is made.  The object itself is the ambient
    store when there is one, and [setSession] writes into that store in
    place: client code that keeps the object and reads a field of it later
    finds what the store holds then, which in a program of this type is a
    second [GetSession] made at that point under the same ambient store.
    [Await] is a suspension point; [Fork child k] starts [child] as an
    asynchronous operation that nobody awaits and goes on with [k]. *)
Inductive prog : Type :=
| Done
| GetSession (k : option SessionContext -> prog)
| SetSession (ck sid : string) (k : prog)
| ClearSession (k : prog)
| RunWithSession (ck sid : string) (body : prog) (k : prog)
| Span (data : list (string * value)) (options : SpanOptions) (k : prog)
| Await (k : prog)
| Fork (child : prog) (k : prog).

(** One call chain run to its end, alone.  [runWithSession] runs [fn] with
    the new store as ambient and hands control back under the caller's own
    ambient; an exception of [fn] passes through it.  A forked operation
    inherits the ambient store, runs at once, and keeps its exception to
    itself (a rejected promise). *)
Fixpoint exec (p : prog) (amb : ambient) (w : World) : outcome * World :=
  match p with
  | Done => (Normal, w)
  | GetSession k => exec (k (getSession amb w)) amb w
  | SetSession ck sid k => exec k amb (setSession amb ck sid w)
  | ClearSession k => exec k amb (clearSession w)
  | RunWithSession ck sid body k =>
      match runWithSession ck sid (exec body) w with
      | (Normal, w2) => exec k amb w2
      | (Threw e, w2) => (Threw e, w2)
      end
  | Span data options k =>
      match span data options amb w with
      | (Normal, w1) => exec k amb w1
      | (Threw e, w1) => (Threw e, w1)
      end
  | Await k => exec k amb w
  | Fork child k => exec k amb (snd (exec child amb w))
  end.

(** Programs that never call [span]. *)
Fixpoint spanFree (p : prog) : Prop :=
  match p with
  | Done => True
  | GetSession k => forall r, spanFree (k r)
  | SetSession _ _ k | ClearSession k | Await k => spanFree k
  | RunWithSession _ _ body k | Fork body k => spanFree body /\ spanFree k
  | Span _ _ _ => False
  end.

(** Values used in the examples. *)
Definition emptyEnv : Env :=
  {| FALLOM_API_KEY := None; FALLOM_BASE_URL := None;
     FALLOM_CAPTURE_CONTENT := None; traceloopInstalled := false |}.

Definition keyOnly : InitOptions :=
  {| optApiKey := Some "key"; optBaseUrl := None; optCaptureContent := None |}.

Definition noInitOptions : InitOptions :=
  {| optApiKey := None; optBaseUrl := None; optCaptureContent := None |}.

Definition mkContext (ck sid : string) : SessionContext :=
  {| configKey := ck; sessionId := sid |}.

(** The module state after [init({ apiKey: "key" })]. *)
Definition ready : World := snd (init keyOnly emptyEnv loaded).

End Trace.

(* ===================================================================== *)
(** ** What getSession returns, call by call *)
(* ===================================================================== *)

Module Reads.
Import Js Trace.

(** What one call of [getSession] returned: the store object of the
    ambient scope itself (named by its address, since [setSession] mutates
    it in place), the fallback object, or [undefined]; with the two fields
    the returned object held when the call was made. *)
Inductive read : Type :=
| ReadStore (l : nat) (fields : SessionContext)
| ReadFallback (fields : SessionContext)
| ReadNothing.

(** [sessionStorage.getStore() || fallbackSession || undefined] *)
Definition observe (amb : ambient) (w : World) : read :=
  match amb, getStore amb w with
  | Some l, Some ctx => ReadStore l ctx
  | _, _ =>
      match fallbackSession w with
      | Some ctx => ReadFallback ctx
      | None => ReadNothing
      end
  end.

Definition fieldsOf (r : read) : option SessionContext :=
  match r with
  | ReadStore _ ctx | ReadFallback ctx => Some ctx
  | ReadNothing => None
  end.

(** The fields a caller that kept the returned object finds in it later,
    in state [w]: a store is written in place by [setSession]; the fallback
    object is replaced by a new one, never written. *)
Definition fieldsLater (r : read) (w : World) : option SessionContext :=
  match r with
  | ReadStore l _ => stores w !! l
  | ReadFallback ctx => Some ctx
  | ReadNothing => None
  end.

(** A run with the reads made during it, in the order they were made. *)
Record run := { outcomeOf : outcome; worldOf : World; readsOf : list read }.

Definition after (rs : list read) (r : run) : run :=
  {| outcomeOf := outcomeOf r; worldOf := worldOf r;
     readsOf := rs ++ readsOf r |}.

(** [exec], which also records every result of [getSession]: those of the
    body of a [runWithSession] and of a forked operation come where the
    body and the operation run. *)
Fixpoint execLog (p : prog) (amb : ambient) (w : World) : run :=
  match p with
  | Done => {| outcomeOf := Normal; worldOf := w; readsOf := [] |}
  | GetSession k =>
      after [observe amb w] (execLog (k (getSession amb w)) amb w)
  | SetSession ck sid k => execLog k amb (setSession amb ck sid w)
  | ClearSession k => execLog k amb (clearSession w)
  | RunWithSession ck sid body k =>
      let inside := runWithSession ck sid (execLog body) w in
      match outcomeOf inside with
      | Normal => after (readsOf inside) (execLog k amb (worldOf inside))
      | Threw e => inside
      end
  | Span data options k =>
      match span data options amb w with
      | (Normal, w1) => execLog k amb w1
      | (Threw e, w1) =>
          {| outcomeOf := Threw e; worldOf := w1; readsOf := [] |}
      end
  | Await k => execLog k amb w
  | Fork child k =>
      let forked := execLog child amb w in
      after (readsOf forked) (execLog k amb (worldOf forked))
  end.

(** The reads of a program run alone. *)
Definition reads (p : prog) (amb : ambient) (w : World) : list read :=
  readsOf (execLog p amb w).

(** Values used in the examples: the inner body reads, sets another
    context and reads again. *)
Definition nested : prog :=
  RunWithSession "agent-a" "s1"
    (RunWithSession "agent-b" "s2"
       (GetSession (fun _ =>
          SetSession "agent-c" "s3" (GetSession (fun _ => Done))))
       (GetSession (fun _ => Done)))
    (GetSession (fun _ => Done)).

End Reads.

(* ===================================================================== *)
(** ** The trace module: span processor, shutdown, combined init *)
(* ===================================================================== *)

Module TraceMore.
Import Js Trace.

(** [fallomSpanProcessor.onStart(span, _)]: the calls of
    [span.setAttribute] it makes, in order. *)
Definition onStart (amb : ambient) (w : World) : list (string * string) :=
  let ctx :=
    match getStore amb w with
    | Some c => Some c
    | None => fallbackSession w
    end in
  match ctx with
  | Some c => [ ("fallom.config_key", configKey c);
                ("fallom.session_id", sessionId c) ]
  | None => []
  end.

Definition withInitialized (w : World) (b : bool) : World :=
  {| stores := stores w; fallbackSession := fallbackSession w;
     apiKey := apiKey w; baseUrl := baseUrl w; initialized := b;
     captureContent := captureContent w; sdk := sdk w;
     traceloop := traceloop w; sigtermHandlers := sigtermHandlers w;
     outbox := outbox w |}.

(** [shutdown()], with an SDK whose own [shutdown] resolves. *)
Definition shutdown (w : World) : World :=
  match sdk w with
  | Some _ => withInitialized w false
  | None => w
  end.

(** The call of [trace.init] made by the combined [init(options)] of the
    package; [models.init] follows it when it returns. *)
Definition fallomInit (options : InitOptions) (env : Env) (w : World)
  : outcome * World :=
  let baseUrl :=
    orStr (optBaseUrl options)
      (orStr (FALLOM_BASE_URL env) (Some "https://spans.fallom.com")) in
  init {| optApiKey := optApiKey options; optBaseUrl := baseUrl;
          optCaptureContent := optCaptureContent options |} env w.

(** The request [sendSpan] issues for the given ids and data. *)
Definition request (w : World) (ck sid : string)
    (data : list (string * value)) : Request :=
  {| reqUrl := baseUrl w ++ "/spans";
     reqAuthorization := "Bearer " ++ default "null" (apiKey w);
     reqConfigKey := ck; reqSessionId := sid; reqData := data |}.

(** [sendSpan(configKey, sessionId, data)] up to its [await]: the body is
    serialized inside the [try], before [fetch] is called.  When
    [JSON.stringify] throws ([serializes = false]: a BigInt or a cycle in
    the data, which [value] does not have) the error is swallowed and no
    request is issued. *)
Definition sendSpan (serializes : bool) (ck sid : string)
    (data : list (string * value)) (w : World) : World :=
  if serializes then withOutbox w (outbox w ++ [request w ck sid data])
  else w.

(** [span(data, options)] for any data, serializable or not; [Trace.span]
    is the case of serializable data. *)
Definition spanWith (serializes : bool) (data : list (string * value))
    (options : SpanOptions) (amb : ambient) (w : World) : outcome * World :=
  if negb (initialized w) then (Threw notInitializedMessage, w)
  else
    let ctx := getSession amb w in
    let ck := orStr (spanConfigKey options) (orStr (configKey <$> ctx) None) in
    let sid := orStr (spanSessionId options) (orStr (sessionId <$> ctx) None) in
    match ck, sid with
    | Some ck', Some sid' => (Normal, sendSpan serializes ck' sid' data w)
    | _, _ => (Threw noSessionMessage, w)
    end.

(** The session part of the state. *)
Definition sameSession (w w' : World) : Prop :=
  stores w' = stores w /\ fallbackSession w' = fallbackSession w.

(** Values used in the examples. *)
Definition quietEnv : Env :=
  {| FALLOM_API_KEY := Some "env-key"; FALLOM_BASE_URL := None;
     FALLOM_CAPTURE_CONTENT := Some "FALSE"; traceloopInstalled := true |}.

Definition captureOn : InitOptions :=
  {| optApiKey := None; optBaseUrl := None; optCaptureContent := Some true |}.

End TraceMore.

(* ===================================================================== *)
(** ** The trace module over its life: init, client calls, shutdown *)
(* ===================================================================== *)

Module Lifecycle.
Import Js Trace TraceMore.

(** A call into the trace module: [init], [shutdown], or client code, a
    sequence of [runWithSession], [setSession], [getSession],
    [clearSession] and [span] calls made under some ambient store. *)
Inductive call : Type :=
| Init (options : InitOptions) (env : Env)
| Shutdown
| Client (p : prog) (amb : ambient).

(** The module state a call leaves behind, whether it returned or threw. *)
Definition perform (c : call) (w : World) : World :=
  match c with
  | Init options env => snd (init options env w)
  | Shutdown => shutdown w
  | Client p amb => snd (exec p amb w)
  end.

Definition performAll (calls : list call) (w : World) : World :=
  fold_left (fun w' c => perform c w') calls w.

Definition isShutdown (c : call) : bool :=
  match c with Shutdown => true | _ => false end.

(** The four module variables [init] is there to set. *)
Definition sameConfig (w w' : World) : Prop :=
  apiKey w' = apiKey w /\ baseUrl w' = baseUrl w /\
  captureContent w' = captureContent w /\ initialized w' = initialized w.

(** Values used in the examples. *)
Definition otherOptions : InitOptions :=
  {| optApiKey := Some "other"; optBaseUrl := Some "https://example.test";
     optCaptureContent := Some false |}.

Definition someCalls : list call :=
  [ Client (SetSession "agent" "s1"
              (Span [("score", VNum 1)] noOptions Done)) None;
    Init otherOptions emptyEnv;
    Client (RunWithSession "agent-b" "s2" (ClearSession Done) Done) None ].

End Lifecycle.

(* ===================================================================== *)
(** ** Interleaved asynchronous call chains *)
(* ===================================================================== *)

Module Async.
Import Js Trace.

(** A call chain is a stack of activations, innermost first; each carries
    the ambient store it runs under, which is how [AsyncLocalStorage] ties
    a store to a chain and keeps it across suspension points. *)
Definition frame : Type := ambient * prog.
Definition task : Type := list frame.

(** What the context store did, newest first in a trace. *)
Inductive event : Type :=
| Entered (l : nat) (ctx : SessionContext)
| SetIn (amb : ambient) (ctx : SessionContext)
| Cleared
| Got (amb : ambient) (result : option SessionContext).

Record config := {
  world : World;
  pool : list task;
  trace : list event
}.

(** The effect of one call of a chain: the chain afterwards, the chains it
    started, the world and the events. *)
Record effect := {
  next : task;
  spawned : list task;
  after : World;
  emitted : list event
}.

Definition stepTask (t : task) (w : World) : option effect :=
  match t with
  | [] => None
  | (amb, p) :: rest =>
      Some
        match p with
        | Done =>
            {| next := rest; spawned := []; after := w; emitted := [] |}
        | GetSession k =>
            let r := getSession amb w in
            {| next := (amb, k r) :: rest; spawned := []; after := w;
               emitted := [Got amb r] |}
        | SetSession ck sid k =>
            {| next := (amb, k) :: rest; spawned := [];
               after := setSession amb ck sid w;
               emitted := [SetIn amb {| configKey := ck; sessionId := sid |}] |}
        | ClearSession k =>
            {| next := (amb, k) :: rest; spawned := [];
               after := clearSession w; emitted := [Cleared] |}
        | RunWithSession ck sid body k =>
            let '(l, w1) := enter ck sid w in
            {| next := (Some l, body) :: (amb, k) :: rest; spawned := [];
               after := w1;
               emitted := [Entered l {| configKey := ck; sessionId := sid |}] |}
        | Span data options k =>
            match span data options amb w with
            | (Normal, w1) =>
                {| next := (amb, k) :: rest; spawned := []; after := w1;
                   emitted := [] |}
            | (Threw _, w1) =>
                {| next := []; spawned := []; after := w1; emitted := [] |}
            end
        | Await k =>
            {| next := (amb, k) :: rest; spawned := []; after := w;
               emitted := [] |}
        | Fork child k =>
            {| next := (amb, k) :: rest; spawned := [[(amb, child)]];
               after := w; emitted := [] |}
        end
  end.

(** The scheduler lets chain number [i] make its next call. *)
Definition stepAt (i : nat) (c : config) : option config :=
  match pool c !! i with
  | None => None
  | Some t =>
      match stepTask t (world c) with
      | None => None
      | Some e =>
          Some {| world := after e;
                  pool := (<[i := next e]> (pool c)) ++ spawned e;
                  trace := emitted e ++ trace c |}
      end
  end.

(** Any chain may be chosen at any call, which allows every interleaving
    the event loop can produce (it switches chains at suspension points
    only) and more. *)
Definition step (c c' : config) : Prop := exists i, stepAt i c = Some c'.

Definition reachable : config -> config -> Prop := rtc step.

(** A given schedule, run as far as it goes. *)
Fixpoint runSchedule (schedule : list nat) (c : config) : config :=
  match schedule with
  | [] => c
  | i :: rest =>
      match stepAt i c with
      | Some c' => runSchedule rest c'
      | None => c
      end
  end.

(** Top-level chains started outside every scope. *)
Definition start (w : World) (programs : list prog) : config :=
  {| world := w; pool := map (fun p => [(None, p)]) programs; trace := [] |}.





(** Two scopes entered side by side, each reading its context after each
    of two suspension points; the first also forks a reader that outlives
    its body. *)
Definition twoScopes : list prog :=
  [ RunWithSession "agent-a" "s1"
      (Await (GetSession (fun _ =>
         Fork (Await (GetSession (fun _ => Done)))
              (Await (GetSession (fun _ => Done))))))
      Done;
    RunWithSession "agent-b" "s2"
      (Await (GetSession (fun _ =>
         SetSession "agent-b" "s2-renewed"
           (Await (GetSession (fun _ => Done))))))
      Done ].

(** The reads made inside scopes, oldest first: the store and the result. *)
Definition checkpoints (tr : list event)
  : list (nat * option SessionContext) :=
  rev (omap (fun e => match e with
                      | Got (Some l) r => Some (l, r)
                      | _ => None
                      end) tr).

End Async.

(* ===================================================================== *)
(** ** The fallback slot under interleaving *)
(* ===================================================================== *)

Module AsyncMore.
Import Js Trace Async.

(** What the fallback slot holds after the events [tr], newest first, when
    it held [initial] before them: the context of the last [setSession],
    made under any ambient store, unless [clearSession] came after it. *)
Fixpoint fallbackAfter (initial : option SessionContext) (tr : list event)
  : option SessionContext :=
  match tr with
  | [] => initial
  | SetIn _ ctx :: _ => Some ctx
  | Cleared :: _ => None
  | _ :: before => fallbackAfter initial before
  end.

(** Every read made outside every scope returned the fallback slot. *)
Fixpoint outsideReads (initial : option SessionContext) (tr : list event)
  : Prop :=
  match tr with
  | [] => True
  | Got None r :: before =>
      r = fallbackAfter initial before /\ outsideReads initial before
  | _ :: before => outsideReads initial before
  end.

(** Two chains outside every scope: one sets and reads, the other sets in
    between. *)
Definition racingSetters : list prog :=
  [ SetSession "agent-a" "s1" (Await (GetSession (fun _ => Done)));
    RunWithSession "agent-b" "s0"
      (SetSession "agent-b" "s2" Done) Done ].

End AsyncMore.

(* ===================================================================== *)
(** ** Vercel AI SDK wrappers: the span handed to sendTrace *)
(* ===================================================================== *)

Module Wrappers.
Import Js Redaction.

(** The value of an attribute.  [AStringified v] is [JSON.stringify(v)] and
    [AMetadata v] is [JSON.stringify(v, sanitizeMetadataOnly)]; the
    serializer itself belongs to the runtime.  The wrappers are given for
    arguments and results that are values of [Js.value], which
    [JSON.stringify] accepts, and for models that [String] prints as
    [toString] does. *)
Inductive attr : Type :=
| AStr (s : string)
| ABool (b : bool)
| AStringified (v : value)
| AMetadata (v : value).

Abbreviation attributes := (gmap string attr).

(** The [SessionContext] of the wrappers. *)
Record SessionCtx := {
  configKey : string;
  sessionId : string;
  customerId : value;
  metadata : value;
  tags : value
}.

Record TraceContext := { traceId : value; parentSpanId : value }.

Record PromptContext := {
  promptKey : value; promptVersion : value;
  abTestKey : value; variantIndex : value
}.

(** What a wrapped call reads from the rest of the SDK and from the clock:
    [isInitialized()], [shouldCaptureContent()], the ambient or fallback
    trace context, the two results of [generateHexId], the two readings of
    [Date.now()], and [getPromptContext()]. *)
Record CallEnv := {
  isInitialized : bool;
  shouldCaptureContent : bool;
  traceCtx : option TraceContext;
  freshTraceId : string;
  freshSpanId : string;
  startTime : Z;
  endTime : Z;
  promptCtx : option PromptContext
}.

(** The argument of [sendTrace].  The two times are kept as the clock
    readings they are rendered from. *)
Record Span := {
  config_key : string;
  session_id : string;
  customer_id : value;
  span_metadata : value;
  span_tags : value;
  trace_id : value;
  span_id : string;
  parent_span_id : value;
  name : string;
  kind : string;
  model : value;
  start_time : Z;
  end_time : Z;
  duration_ms : Z;
  status : string;
  error_message : value;
  is_streaming : bool;
  span_attributes : attributes;
  prompt_key : value;
  prompt_version : value;
  prompt_ab_test_key : value;
  prompt_variant_index : value
}.

(** How the wrapped SDK function ended. *)
Inductive settled : Type :=
| Resolved (result : value)
| Rejected (error : value).

(** [Object.keys(v)] of a truthy value *)
Definition objectKeys (v : value) : value :=
  match v with
  | VObj fs => VArr (map (fun kv => VStr (fst kv)) fs)
  | VArr items =>
      VArr (map (fun i => VStr (pretty i)) (seq 0 (List.length items)))
  | VStr s => VArr (map (fun i => VStr (pretty i)) (seq 0 (String.length s)))
  | VBytes bs => VArr (map (fun i => VStr (pretty i)) (seq 0 (List.length bs)))
  | _ => VArr []
  end.

(** [c ? a : undefined] *)
Definition whenTruthy (c a : value) : value :=
  if truthy c then a else VUndefined.

(** [traceCtx?.traceId || generateHexId(32)] and [traceCtx?.parentSpanId] *)
Definition traceIdOf (env : CallEnv) : value :=
  or (from_option traceId VUndefined (traceCtx env)) (VStr (freshTraceId env)).

Definition parentOf (env : CallEnv) : value :=
  from_option parentSpanId VUndefined (traceCtx env).

(** [params?.model?.modelId || String(params?.model || "unknown")] *)
Definition paramsModelId (params : value) : value :=
  or (get (get params "model") "modelId")
     (VStr (toString (or (get params "model") (VStr "unknown")))).

(** [result?.response?.modelId || ...] *)
Definition resultModelId (result params : value) : value :=
  or (get (get result "response") "modelId") (paramsModelId params).

(** One element of [result.steps] as the wrapper copies it. *)
Definition copyStep (step : value) : value :=
  VObj [ ("stepType", get step "stepType"); ("text", get step "text");
         ("finishReason", get step "finishReason");
         ("toolCalls", get step "toolCalls");
         ("toolResults", get step "toolResults");
         ("usage", get step "usage") ].

(** [steps?.map(copy)]: [undefined] on [null] and [undefined]; the copies
    on an array; on a typed array, which has a [map] of its own, a typed
    array of the same length holding each copy converted to a number, so
    zeros; and a [TypeError] ([None]) on a number, a boolean, a string, a
    function or an object, none of which inherits a [map].  An object with
    a callable [map] among its own properties is not covered: what that
    [map] returns is code of the caller. *)
Definition mapSteps (steps : value) : option value :=
  match steps with
  | VUndefined | VNull => Some VUndefined
  | VArr items => Some (VArr (map copyStep items))
  | VBytes bytes => Some (VBytes (map (fun _ => 0%Z) bytes))
  | _ => None
  end.

Definition typeError : value :=
  VObj [("name", VStr "TypeError");
        ("message", VStr "result?.steps?.map is not a function")].

Definition promptField (f : PromptContext -> value) (env : CallEnv) : value :=
  from_option f VUndefined (promptCtx env).

(** *** generateText *)

Definition generateTextRequest (params modelId : value) : value :=
  VObj [ ("prompt", get params "prompt"); ("messages", get params "messages");
         ("system", get params "system"); ("model", modelId);
         ("tools", whenTruthy (get params "tools")
                     (objectKeys (get params "tools")));
         ("maxSteps", get params "maxSteps") ].

Definition generateTextResponse (result steps : value) : value :=
  VObj [ ("text", get result "text");
         ("finishReason", get result "finishReason");
         ("responseId", get (get result "response") "id");
         ("modelId", get (get result "response") "modelId");
         ("toolCalls", get result "toolCalls");
         ("toolResults", get result "toolResults");
         ("steps", steps);
         ("responseMessages", get result "responseMessages") ].

(** [if (c) attributes[k] = a] *)
Definition setWhen (c : bool) (k : string) (a : attr) (m : attributes)
  : attributes :=
  if c then <[k := a]> m else m.

(** The usage and provider metadata lines, common to the wrappers. *)
Definition withUsage (usage providerMetadata : value) (m : attributes)
  : attributes :=
  setWhen (truthy providerMetadata) "fallom.raw.providerMetadata"
    (AStringified providerMetadata)
    (setWhen (truthy usage) "fallom.raw.usage" (AStringified usage) m).

(** The attributes built in the [try] block of the generateText wrapper;
    [None] when building them throws. *)
Definition generateTextAttributes (captureContent : bool)
    (params result modelId : value) : option attributes :=
  let base : attributes :=
    <["fallom.method" := AStr "generateText"]>
      (<["fallom.sdk_version" := AStr "2"]> ∅) in
  let content :=
    if captureContent then
      match mapSteps (get result "steps") with
      | Some steps =>
          Some (<["fallom.raw.response" :=
                    AStringified (generateTextResponse result steps)]>
                  (<["fallom.raw.request" :=
                       AStringified (generateTextRequest params modelId)]>
                     base))
      | None => None
      end
    else Some base in
  withUsage (get result "usage") (get result "experimental_providerMetadata")
    <$> content.

(** The attributes written in the [catch] block of the generateText
    wrapper. *)
Definition generateTextErrorAttributes (params modelId : value)
  : attributes :=
  <["fallom.raw.request" :=
      AStringified
        (VObj [ ("prompt", get params "prompt");
                ("messages", get params "messages");
                ("system", get params "system"); ("model", modelId) ])]>
    (<["fallom.method" := AStr "generateText"]>
       (<["fallom.sdk_version" := AStr "2"]> ∅)).

Definition okSpan (ctx : SessionCtx) (env : CallEnv) (method : string)
    (modelId : value) (streaming : bool) (attrs : attributes)
    (withMeta : bool) : Span :=
  {| config_key := configKey ctx; session_id := sessionId ctx;
     customer_id := customerId ctx;
     span_metadata := if withMeta then metadata ctx else VUndefined;
     span_tags := if withMeta then tags ctx else VUndefined;
     trace_id := traceIdOf env; span_id := freshSpanId env;
     parent_span_id := parentOf env; name := method; kind := "llm";
     model := modelId; start_time := startTime env; end_time := endTime env;
     duration_ms := (endTime env - startTime env)%Z; status := "OK";
     error_message := VUndefined; is_streaming := streaming;
     span_attributes := attrs;
     prompt_key := promptField promptKey env;
     prompt_version := promptField promptVersion env;
     prompt_ab_test_key := promptField abTestKey env;
     prompt_variant_index := promptField variantIndex env |}.

Definition errorSpan (ctx : SessionCtx) (env : CallEnv) (method : string)
    (modelId error : value) (streaming : bool) (attrs : attributes)
    (withMeta : bool) : Span :=
  {| config_key := configKey ctx; session_id := sessionId ctx;
     customer_id := customerId ctx;
     span_metadata := if withMeta then metadata ctx else VUndefined;
     span_tags := if withMeta then tags ctx else VUndefined;
     trace_id := traceIdOf env; span_id := freshSpanId env;
     parent_span_id := parentOf env; name := method; kind := "llm";
     model := modelId; start_time := startTime env; end_time := endTime env;
     duration_ms := (endTime env - startTime env)%Z; status := "ERROR";
     error_message := get error "message"; is_streaming := streaming;
     span_attributes := attrs;
     prompt_key := VUndefined; prompt_version := VUndefined;
     prompt_ab_test_key := VUndefined; prompt_variant_index := VUndefined |}.

(** The function returned by [createGenerateTextWrapper], for a call whose
    first argument is [arg] and whose wrapped SDK function ends as [call]:
    the spans handed to [sendTrace] and how the wrapper itself ends. *)
Definition createGenerateTextWrapper (ctx : SessionCtx) (env : CallEnv)
    (arg : value) (call : settled) : list Span * settled :=
  if negb (isInitialized env) then ([], call)
  else
    let params := or arg (VObj []) in
    let captureContent := shouldCaptureContent env in
    let failed (error : value) :=
      let modelId := paramsModelId params in
      ([errorSpan ctx env "generateText" modelId error false
          (generateTextErrorAttributes params modelId) false],
       Rejected error) in
    match call with
    | Resolved result =>
        let modelId := resultModelId result params in
        match generateTextAttributes captureContent params result modelId with
        | Some attrs =>
            ([okSpan ctx env "generateText" modelId false attrs false],
             Resolved result)
        | None => failed typeError
        end
    | Rejected error => failed error
    end.

(** *** generateObject *)

Definition generateObjectAttributes (captureContent : bool)
    (params result modelId : value) : attributes :=
  let base : attributes :=
    <["fallom.method" := AStr "generateObject"]>
      (<["fallom.sdk_version" := AStr "2"]> ∅) in
  let content :=
    if captureContent then
      <["fallom.raw.response" :=
          AStringified
            (VObj [ ("object", get result "object");
                    ("finishReason", get result "finishReason");
                    ("responseId", get (get result "response") "id");
                    ("modelId", get (get result "response") "modelId") ])]>
        (<["fallom.raw.request" :=
             AStringified
               (VObj [ ("prompt", get params "prompt");
                       ("messages", get params "messages");
                       ("system", get params "system"); ("model", modelId);
                       ("schema", whenTruthy (get params "schema")
                                    (VStr "provided")) ])]>
           base)
    else base in
  withUsage (get result "usage") (get result "experimental_providerMetadata")
    content.

Definition generateObjectErrorAttributes : attributes :=
  <["fallom.method" := AStr "generateObject"]>
    (<["fallom.sdk_version" := AStr "2"]> ∅).

(** The function returned by [createGenerateObjectWrapper]. *)
Definition createGenerateObjectWrapper (ctx : SessionCtx) (env : CallEnv)
    (arg : value) (call : settled) : list Span * settled :=
  if negb (isInitialized env) then ([], call)
  else
    let params := or arg (VObj []) in
    match call with
    | Resolved result =>
        let modelId := resultModelId result params in
        ([okSpan ctx env "generateObject" modelId false
            (generateObjectAttributes (shouldCaptureContent env)
               params result modelId) true],
         Resolved result)
    | Rejected error =>
        ([errorSpan ctx env "generateObject" (paramsModelId params) error
            false generateObjectErrorAttributes true],
         Rejected error)
    end.

(** *** streamObject *)

(** The result of [extractProviderInfo], which is taken as given. *)
Record ProviderInfo := {
  provider : value;
  providerId : value;
  providerBaseUrl : value;
  aiSdkVersion : value;
  providerRaw : option (list (string * value))
}.

(** The attribute value of a field that is known to be truthy. *)
Definition attrOf (v : value) : attr :=
  match v with
  | VStr s => AStr s
  | VBool b => ABool b
  | _ => AStringified v
  end.

(** [providerInfoToAttributes(info)] *)
Definition providerInfoToAttributes (info : ProviderInfo) : attributes :=
  let a1 := setWhen (truthy (provider info)) "fallom.provider"
              (attrOf (provider info)) ∅ in
  let a2 := setWhen (truthy (providerId info)) "fallom.provider_id"
              (attrOf (providerId info)) a1 in
  let a3 := setWhen (truthy (providerBaseUrl info)) "fallom.base_url"
              (attrOf (providerBaseUrl info)) a2 in
  let a4 := setWhen (truthy (aiSdkVersion info)) "fallom.ai_sdk_version"
              (attrOf (aiSdkVersion info)) a3 in
  match providerRaw info with
  | Some (f :: fs) =>
      <["fallom.provider_raw" := AStringified (VObj (f :: fs))]> a4
  | _ => a4
  end.

(** What the promises of the stream result settled to; a rejected one
    counts as [null].  [metadataSerialized] tells whether
    [JSON.stringify(result, sanitizeMetadataOnly)] returned: the call sits
    in a [try] of its own, for a result that cannot be serialized. *)
Record Stream := {
  rawUsage : value;
  responseObject : value;
  finishReason : value;
  providerMetadata : value;
  metadataSerialized : bool
}.

(** The attributes built in the [then] callback of the streamObject
    wrapper, for its OK span. *)
Definition streamObjectAttributes (captureContent : bool)
    (params result modelId : value) (info : ProviderInfo) (s : Stream)
  : attributes :=
  let base : attributes :=
    providerInfoToAttributes info ∪
    (<["fallom.is_streaming" := ABool true]>
       (<["fallom.method" := AStr "streamObject"]>
          (<["fallom.sdk_version" := AStr "2"]> ∅))) in
  let content :=
    if captureContent then
      setWhen (truthy (responseObject s) || truthy (finishReason s))
        "fallom.raw.response"
        (AStringified (VObj [ ("object", responseObject s);
                              ("finishReason", finishReason s) ]))
        (<["fallom.raw.request" :=
             AStringified
               (VObj [ ("prompt", get params "prompt");
                       ("messages", get params "messages");
                       ("system", get params "system"); ("model", modelId);
                       ("schema", whenTruthy (get params "schema")
                                    (VStr "provided")) ])]>
           base)
    else base in
  setWhen (metadataSerialized s) "fallom.raw.metadata" (AMetadata result)
    (withUsage (rawUsage s) (providerMetadata s) content).

Definition streamObjectErrorAttributes : attributes :=
  <["fallom.is_streaming" := ABool true]>
    (<["fallom.method" := AStr "streamObject"]>
       (<["fallom.sdk_version" := AStr "2"]> ∅)).

(** The function returned by [createStreamObjectWrapper], for a stream
    result [result] whose promises settle to [s]: the spans handed to
    [sendTrace].  Nothing is recorded unless [result.usage] is there. *)
Definition createStreamObjectWrapper (ctx : SessionCtx) (env : CallEnv)
    (arg result : value) (info : ProviderInfo) (s : Stream) : list Span :=
  let params := or arg (VObj []) in
  if negb (isInitialized env) then []
  else if truthy (get result "usage") then
    let modelId := paramsModelId params in
    [okSpan ctx env "streamObject" modelId true
       (streamObjectAttributes (shouldCaptureContent env) params result
          modelId info s) true]
  else [].

(** Neither content attribute is present. *)
Definition contentFree (m : attributes) : Prop :=
  m !! "fallom.raw.request" = None /\ m !! "fallom.raw.response" = None.

(** Values used in the examples. *)
Definition privateEnv : CallEnv :=
  {| isInitialized := true; shouldCaptureContent := false;
     traceCtx := None; freshTraceId := "0123456789abcdef0123456789abcdef";
     freshSpanId := "0123456789abcdef"; startTime := 1000; endTime := 1250;
     promptCtx := None |}.

Definition someSession : SessionCtx :=
  {| configKey := "my-agent"; sessionId := "session-1";
     customerId := VUndefined; metadata := VUndefined; tags := VUndefined |}.

Definition secretParams : value :=
  VObj [ ("model", VObj [("modelId", VStr "gpt-4o")]);
         ("prompt", VStr "my secret prompt") ].

Definition rateLimited : value :=
  VObj [("message", VStr "429 Too Many Requests")].

End Wrappers.

(* ===================================================================== *)
(** ** Provider detection *)
(* ===================================================================== *)

Module Provider.
Import Js Trace Wrappers.

(** [a ?? b] *)
Definition coalesce (a b : value) : value :=
  match a with
  | VUndefined | VNull => b
  | _ => a
  end.

(** [s.includes(sub)] *)
Fixpoint strIncludes (s sub : string) : bool :=
  String.prefix sub s ||
  match s with
  | EmptyString => false
  | String _ rest => strIncludes rest sub
  end.

(** [model.modelId ?? model.id ?? String(model)] *)
Definition modelIdOf (model : value) : value :=
  coalesce (get model "modelId")
    (coalesce (get model "id") (VStr (toString model))).

(** The chain of places a base URL is looked for. *)
Definition modelBaseUrl (model : value) : value :=
  coalesce (get (get model "config") "baseURL")
    (coalesce (get (get model "config") "baseUrl")
       (coalesce (get (get model "settings") "baseURL")
          (coalesce (get (get model "settings") "baseUrl")
             (coalesce (get model "baseURL") (get model "baseUrl"))))).

(** The provider a base URL gives away, if any. *)
Definition providerOfUrl (baseUrl : string) : option string :=
  if strIncludes baseUrl "openrouter.ai" then Some "openrouter"
  else if strIncludes baseUrl "api.openai.com" then Some "openai"
  else if strIncludes baseUrl "api.anthropic.com" then Some "anthropic"
  else if strIncludes baseUrl "generativelanguage.googleapis.com"
  then Some "google"
  else if strIncludes baseUrl "api.mistral.ai" then Some "mistral"
  else if strIncludes baseUrl "api.together.xyz" then Some "together"
  else if strIncludes baseUrl "api.groq.com" then Some "groq"
  else if strIncludes baseUrl "localhost" || strIncludes baseUrl "127.0.0.1"
  then Some "local"
  else None.

(** The provider a lower-cased model id gives away, if any. *)
Definition providerOfModelId (modelStr : string) : option string :=
  if strIncludes modelStr "gpt-" || strIncludes modelStr "o1-"
     || strIncludes modelStr "text-embedding" then Some "openai"
  else if strIncludes modelStr "claude-" then Some "anthropic"
  else if strIncludes modelStr "gemini-" || strIncludes modelStr "gemma-"
  then Some "google"
  else if strIncludes modelStr "mistral-" || strIncludes modelStr "mixtral-"
  then Some "mistral"
  else if strIncludes modelStr "llama-" || strIncludes modelStr "meta-llama"
  then Some "meta"
  else if strIncludes modelStr "/" then Some "openrouter"
  else None.

(** [typeof v === "object"] *)
Definition isObjectType (v : value) : bool := String.eqb (typeof v) "object".

Definition isStringType (v : value) : bool := String.eqb (typeof v) "string".

(** The [raw] object collected at the end. *)
Definition rawOf (model : value) : list (string * value) :=
  let mp := get model "provider" in
  (if truthy (get model "modelId")
   then [("modelId", get model "modelId")] else [])
  ++ (if truthy mp
      then [("provider",
             if isObjectType mp
             then VObj [("id", get mp "id"); ("name", get mp "name")]
             else mp)]
      else [])
  ++ (if truthy (get model "providerId")
      then [("providerId", get model "providerId")] else [])
  ++ (if truthy (get model "specificationVersion")
      then [("specificationVersion", get model "specificationVersion")]
      else []).

Definition emptyInfo (version : value) : ProviderInfo :=
  {| provider := VUndefined; providerId := VUndefined;
     providerBaseUrl := VUndefined; aiSdkVersion := version;
     providerRaw := None |}.

(** [extractProviderInfo(model, aiModule, result)]: the info, and its
    [modelId] field.  No step of it throws on the values modelled here. *)
Definition extractProviderInfo (model aiModule result : value)
  : ProviderInfo * value :=
  let version :=
    if truthy aiModule
    then coalesce (get aiModule "version")
           (coalesce (get aiModule "VERSION") VUndefined)
    else VUndefined in
  if negb (truthy model) then (emptyInfo version, VUndefined)
  else
    let modelId := modelIdOf model in
    let mp := get model "provider" in
    let '(provider1, providerId1) :=
      if truthy mp then
        if isStringType mp then (mp, VUndefined)
        else if isObjectType mp
        then (coalesce (get mp "id") (get mp "name"), get mp "id")
        else (VUndefined, VUndefined)
      else (VUndefined, VUndefined) in
    let providerId2 :=
      if truthy (get model "providerId") then get model "providerId"
      else providerId1 in
    let baseUrl := modelBaseUrl model in
    let '(infoBaseUrl, provider2) :=
      match baseUrl with
      | VStr u =>
          if truthy baseUrl then
            (baseUrl,
             if truthy provider1 then provider1
             else match providerOfUrl u with
                  | Some p => VStr p
                  | None => provider1
                  end)
          else (VUndefined, provider1)
      | _ => (VUndefined, provider1)
      end in
    let provider3 :=
      if negb (truthy provider2) && truthy modelId then
        match providerOfModelId (toLowerCase (toString modelId)) with
        | Some p => coalesce provider2 (VStr p)
        | None => provider2
        end
      else provider2 in
    let modelId' :=
      if truthy (get result "response") then
        if negb (truthy modelId)
           && truthy (get (get result "response") "modelId")
        then get (get result "response") "modelId"
        else modelId
      else modelId in
    ({| provider := provider3; providerId := providerId2;
        providerBaseUrl := infoBaseUrl; aiSdkVersion := version;
        providerRaw := Some (rawOf model) |},
     modelId').

(** The attribute names [providerInfoToAttributes] can produce. *)
Definition providerKeys : list string :=
  [ "fallom.provider"; "fallom.provider_id"; "fallom.base_url";
    "fallom.ai_sdk_version"; "fallom.provider_raw" ].

(** Values used in the examples. *)
Definition routedModel : value :=
  VObj [ ("modelId", VStr "openai/gpt-4o");
         ("config", VObj [("baseURL", VStr "https://openrouter.ai/api/v1")]) ].

End Provider.

(* ===================================================================== *)
(** ** Properties of the redaction profiles *)
(* ===================================================================== *)

Module RedactionFacts.
Import Js Redaction.

Lemma includes_In (l : list string) (k : string) :
  includes l k = true <-> In k l.
Proof.
  unfold includes. rewrite existsb_exists. split.
  - intros (x & Hx & Heq). apply String.eqb_eq in Heq. now subst.
  - intros H. exists k. split; [assumption | apply String.eqb_refl].
Qed.

Lemma includes_not_In (l : list string) (k : string) :
  ~ In k l -> includes l k = false.
Proof.
  intros H. destruct (includes l k) eqn:E; [|reflexivity].
  apply includes_In in E. contradiction.
Qed.

Lemma keyed_omitted (key : string) (v : value) :
  key = "rawResponse" \/ key = "rawCall" ->
  sanitizeForLogging key v = VStr "[omitted]".
Proof. intros [-> | ->]; reflexivity. Qed.

Lemma unkeyed_guard (key : string) :
  key <> "rawResponse" -> key <> "rawCall" ->
  String.eqb key "rawResponse" || String.eqb key "rawCall" = false.
Proof.
  intros H1 H2. apply orb_false_iff.
  split; apply String.eqb_neq; assumption.
Qed.

(** Outside the two skipped keys the replacer looks at the value only. *)
Lemma sanitizeForLogging_unkeyed (key key' : string) (v : value) :
  key <> "rawResponse" -> key <> "rawCall" ->
  key' <> "rawResponse" -> key' <> "rawCall" ->
  sanitizeForLogging key v = sanitizeForLogging key' v.
Proof.
  intros H1 H2 H3 H4. unfold sanitizeForLogging.
  now rewrite !unkeyed_guard.
Qed.

Lemma metadata_unlisted (key : string) (v : value) :
  ~ In key contentKeys ->
  sanitizeMetadataOnly key v = metadataGeneral v.
Proof.
  intros H. unfold sanitizeMetadataOnly. now rewrite includes_not_In.
Qed.

Lemma metadata_listed (key : string) (v p : value) :
  In key contentKeys -> contentPlaceholder v = Some p ->
  sanitizeMetadataOnly key v = p.
Proof.
  intros H Hp. unfold sanitizeMetadataOnly.
  apply includes_In in H. now rewrite H, Hp.
Qed.

Lemma listedNames_on_denylist :
  forall k, In k listedNames -> In k contentKeys.
Proof.
  intros k H. apply includes_In.
  unfold listedNames in H. simpl in H.
  repeat (destruct H as [<- | H]; [reflexivity|]). contradiction.
Qed.

(** C5, as stated, fails twice: a denylisted field holding a number is not
    replaced at all, and a long data-URI string in a field that is not on the
    denylist gets the fixed image placeholder, which states no length. *)
Lemma metadata_only_claim_fails :
  sanitizeMetadataOnly "text" (VNum 42) = VNum 42 /\
  (1000 < strlen ("data:image/" ++ replicateStr 1500 "A"))%N /\
  sanitizeMetadataOnly "note" (VStr ("data:image/" ++ replicateStr 1500 "A"))
    = VStr "[base64 image omitted]".
Proof. vm_compute. repeat split. Qed.

(** C5 (amended): under the metadata-only profile a denylisted field that
    holds a string, an array or another non-null object becomes the
    type-aware placeholder, whatever its length or prefix, so before the
    general string rule; a denylisted field that holds a number, a boolean,
    [null] or [undefined] is not replaced; a string in any other field
    becomes the fixed image placeholder when it starts with [data:image/],
    and otherwise the length-stating placeholder once it is longer than
    1,000 characters. *)
Theorem metadata_only_profile (key : string) :
  (In key contentKeys ->
     (forall s, sanitizeMetadataOnly key (VStr s)
                = VStr ("[content omitted: " ++ showN (strlen s) ++ " chars]")) /\
     (forall items, sanitizeMetadataOnly key (VArr items)
                = VStr ("[content omitted: " ++ showN (arrlen items) ++ " items]")) /\
     (forall fields, sanitizeMetadataOnly key (VObj fields)
                = VStr "[content omitted]") /\
     (forall bytes, sanitizeMetadataOnly key (VBytes bytes)
                = VStr "[content omitted]")) /\
  (~ In key contentKeys ->
     forall s,
       (startsWith s "data:image/" = true ->
          sanitizeMetadataOnly key (VStr s) = VStr "[base64 image omitted]") /\
       (startsWith s "data:image/" = false -> (1000 < strlen s)%N ->
          sanitizeMetadataOnly key (VStr s)
          = VStr ("[large string omitted: " ++ showN (strlen s) ++ " chars]")) /\
       (startsWith s "data:image/" = false -> (strlen s <= 1000)%N ->
          sanitizeMetadataOnly key (VStr s) = VStr s)) /\
  (forall k, In k listedNames -> In k contentKeys) /\
  sanitizeMetadataOnly "content" (VStr (replicateStr 50 "c"))
    = VStr "[content omitted: 50 chars]" /\
  (In key contentKeys ->
     (forall n, sanitizeMetadataOnly key (VNum n) = VNum n) /\
     (forall b, sanitizeMetadataOnly key (VBool b) = VBool b) /\
     sanitizeMetadataOnly key VNull = VNull /\
     sanitizeMetadataOnly key VUndefined = VUndefined).
Proof.
  split; [|split; [|split; [|split]]].
  - intros H. repeat split; intros; now apply metadata_listed.
  - intros H s. rewrite (metadata_unlisted _ _ H). unfold metadataGeneral.
    repeat split.
    + now intros ->.
    + intros -> Hlen. apply N.ltb_lt in Hlen. now rewrite Hlen.
    + intros -> Hlen. apply N.ltb_ge in Hlen. now rewrite Hlen.
  - exact listedNames_on_denylist.
  - vm_compute. reflexivity.
  - intros H. apply includes_In in H. unfold sanitizeMetadataOnly.
    rewrite H. split; [|split; [|split]]; try intros x; try reflexivity.
    all: cbn; unfold isBinary, isBufferJson; cbn; now rewrite andb_false_r.
Qed.

Lemma not_in_contentKeys_note : ~ In "note" contentKeys.
Proof.
  intros H. apply includes_In in H. vm_compute in H. discriminate.
Qed.

Lemma metadata_only_profile_witness :
  sanitizeMetadataOnly "messages" (VArr [VStr "hi"; VStr "there"])
    = VStr "[content omitted: 2 items]" /\
  sanitizeMetadataOnly "note" (VStr (replicateStr 1001 "n"))
    = VStr "[large string omitted: 1001 chars]" /\
  sanitizeMetadataOnly "text" (VNum 42) = VNum 42.
Proof.
  split; [|split].
  - refine (proj1 (proj2 (proj1 (metadata_only_profile "messages") _)) _).
    apply includes_In. vm_compute. reflexivity.
  - refine (proj1 (proj2 (proj1 (proj2 (metadata_only_profile "note"))
              not_in_contentKeys_note _)) _ _); vm_compute; reflexivity.
  - refine (proj1 (proj2 (proj2 (proj2 (proj2
              (metadata_only_profile "text")))) _) 42%Z).
    apply includes_In. vm_compute. reflexivity.
Defined.

(** C6, as stated, fails: the replacer strips by field name.  Equal values
    are redacted differently under [rawCall] and under another name, and a
    long string under [rawResponse] gets a placeholder without its length. *)
Lemma full_content_claim_fails :
  sanitizeForLogging "rawCall" (VStr "ok") = VStr "[omitted]" /\
  sanitizeForLogging "note" (VStr "ok") = VStr "ok" /\
  (10000 < strlen (replicateStr 10001 "r"))%N /\
  sanitizeForLogging "rawResponse" (VStr (replicateStr 10001 "r"))
    = VStr "[omitted]".
Proof. vm_compute. repeat split. Qed.

(** C6 (amended): under the full-content profile a field named
    [rawResponse] or [rawCall] is always replaced by ["[omitted]"]; for every
    other field name a string starting with [data:image/] becomes the fixed
    image placeholder, any other string longer than 10,000 characters the
    placeholder stating its length, a [Uint8Array]/[Buffer] the fixed binary
    placeholder, and the result is the same under any two such names. *)
Theorem full_content_profile (key : string) (v : value) :
  key <> "rawResponse" -> key <> "rawCall" ->
  (forall s, v = VStr s -> startsWith s "data:image/" = true ->
     sanitizeForLogging key v = VStr "[base64 image omitted]") /\
  (forall s, v = VStr s -> startsWith s "data:image/" = false ->
     (10000 < strlen s)%N ->
     sanitizeForLogging key v
     = VStr ("[large string omitted: " ++ showN (strlen s) ++ " chars]")) /\
  (forall s, v = VStr s -> startsWith s "data:image/" = false ->
     (strlen s <= 10000)%N -> sanitizeForLogging key v = v) /\
  (forall bytes, v = VBytes bytes ->
     sanitizeForLogging key v = VStr "[binary data omitted]") /\
  (forall fields, v = VObj fields -> assoc "type" fields = Some (VStr "Buffer") ->
     sanitizeForLogging key v = VStr "[binary data omitted]") /\
  (forall key', key' <> "rawResponse" -> key' <> "rawCall" ->
     sanitizeForLogging key v = sanitizeForLogging key' v) /\
  sanitizeForLogging "rawResponse" v = VStr "[omitted]" /\
  sanitizeForLogging "rawCall" v = VStr "[omitted]".
Proof.
  intros H1 H2. unfold sanitizeForLogging at 1 2 3 4 5.
  rewrite (unkeyed_guard _ H1 H2).
  repeat split.
  - intros s -> Hp. now rewrite Hp.
  - intros s -> Hp Hlen. apply N.ltb_lt in Hlen. now rewrite Hp, Hlen.
  - intros s -> Hp Hlen. apply N.ltb_ge in Hlen. now rewrite Hp, Hlen.
  - now intros bytes ->.
  - intros fields -> Hty. unfold isBinary, isBufferJson. simpl.
    now rewrite Hty.
  - intros key' H3 H4. rewrite (sanitizeForLogging_unkeyed key' key) by assumption.
    unfold sanitizeForLogging. now rewrite (unkeyed_guard _ H1 H2).
Qed.

Lemma full_content_profile_witness :
  sanitizeForLogging "note" (VStr (replicateStr 10001 "n"))
    = VStr "[large string omitted: 10001 chars]".
Proof.
  refine (proj1 (proj2 (full_content_profile "note" _ _ _)) _ eq_refl _ _);
    [discriminate | discriminate | vm_compute; reflexivity
    | vm_compute; reflexivity].
Defined.

End RedactionFacts.

(* ===================================================================== *)
(** ** What the replacers guarantee about their output *)
(* ===================================================================== *)

Module RedactionMore.
Import Js Redaction Limits RedactionFacts.

Local Arguments String.append !s1 s2 /.

Lemma strlen_append (a b : string) : strlen (a ++ b) = (strlen a + strlen b)%N.
Proof.
  unfold strlen. induction a as [|c a IH]; [reflexivity|].
  cbn [append String.length]. rewrite !Nat2N.inj_succ, IH. lia.
Qed.

(** A number below [10^k] prints on at most [k] digits. *)
Lemma pretty_N_go_length (k : nat) :
  forall (n : N) (s : string),
    (n < 10 ^ N.of_nat k)%N ->
    (strlen (pretty_N_go n s) <= strlen s + N.of_nat k)%N.
Proof.
  induction k as [|k IH]; intros n s Hn.
  - assert (n = 0%N) as -> by (cbn in Hn; lia).
    rewrite pretty_N_go_0. lia.
  - destruct (N.eq_dec n 0%N) as [->|Hpos].
    + rewrite pretty_N_go_0. lia.
    + rewrite pretty_N_go_step by lia.
      assert (Hdiv : (n `div` 10 < 10 ^ N.of_nat k)%N).
      { apply N.Div0.div_lt_upper_bound.
        rewrite Nat2N.inj_succ, N.pow_succ_r' in Hn. exact Hn. }
      specialize (IH _ (String (pretty_N_char (n `mod` 10)) s) Hdiv).
      unfold strlen in *. cbn [String.length] in IH. lia.
Qed.

Lemma showN_length (n : N) :
  (n <= maxLength)%N -> (strlen (showN n) <= 16)%N.
Proof.
  intros Hn. unfold showN, pretty, pretty_N.
  destruct (decide (n = 0%N)); [vm_compute; discriminate|].
  pose proof (pretty_N_go_length 16 n "") as H.
  change (strlen "") with 0%N in H. apply H.
  unfold maxLength in Hn. lia.
Qed.

(** The three length-stating placeholders. *)
Lemma large_string_tame (n bound : N) :
  (n <= maxLength)%N -> (46 <= bound)%N ->
  tame bound (VStr ("[large string omitted: " ++ showN n ++ " chars]")).
Proof.
  intros Hn Hb. split; [|reflexivity].
  rewrite !strlen_append. pose proof (showN_length n Hn).
  change (strlen "[large string omitted: ") with 23%N.
  change (strlen " chars]") with 7%N. lia.
Qed.

Lemma content_chars_tame (n bound : N) :
  (n <= maxLength)%N -> (41 <= bound)%N ->
  tame bound (VStr ("[content omitted: " ++ showN n ++ " chars]")).
Proof.
  intros Hn Hb. split; [|reflexivity].
  rewrite !strlen_append. pose proof (showN_length n Hn).
  change (strlen "[content omitted: ") with 18%N.
  change (strlen " chars]") with 7%N. lia.
Qed.

Lemma content_items_tame (n bound : N) :
  (n <= maxLength)%N -> (41 <= bound)%N ->
  tame bound (VStr ("[content omitted: " ++ showN n ++ " items]")).
Proof.
  intros Hn Hb. split; [|reflexivity].
  rewrite !strlen_append. pose proof (showN_length n Hn).
  change (strlen "[content omitted: ") with 18%N.
  change (strlen " items]") with 7%N. lia.
Qed.

Lemma fixed_tame :
  tame 1000 (VStr "[omitted]") /\ tame 1000 (VStr "[base64 image omitted]") /\
  tame 1000 (VStr "[binary data omitted]") /\
  tame 1000 (VStr "[content omitted]").
Proof. vm_compute. repeat split; discriminate. Qed.

Lemma tame_weaken (b1 b2 : N) (v : value) :
  (b1 <= b2)%N -> tame b1 v -> tame b2 v.
Proof. intros Hb. destruct v; cbn [tame]; try tauto. intros [H1 H2]. split; [lia|assumption]. Qed.

(** The general rules of the metadata-only profile. *)
Lemma metadataGeneral_tame (v : value) :
  withinLimits v -> tame 1000 (metadataGeneral v).
Proof.
  intros Hv. pose proof fixed_tame as (_ & Himg & Hbin & _).
  unfold metadataGeneral. destruct v as [| |b|n|s|items|fields|bytes|f];
    try exact I; try (destruct (isBinary _); [exact Hbin | exact I]).
  destruct (startsWith s "data:image/") eqn:Hp; [exact Himg|].
  destruct (N.ltb_spec 1000 (strlen s)).
  - apply large_string_tame; [exact Hv | lia].
  - split; assumption.
Qed.

(** X1: whatever the field, the metadata-only profile never lets through a
    string longer than 1,000 characters or an inline image. *)
Theorem sanitizeMetadataOnly_tame (key : string) (v : value) :
  withinLimits v -> tame 1000 (sanitizeMetadataOnly key v).
Proof.
  intros Hv. unfold sanitizeMetadataOnly.
  destruct (includes contentKeys key); [|now apply metadataGeneral_tame].
  pose proof fixed_tame as (_ & _ & _ & Hc).
  destruct v as [| |b|n|s|items|fields|bytes|f]; cbn [contentPlaceholder];
    try exact Hc; try (now apply metadataGeneral_tame).
  - apply content_chars_tame; [exact Hv | lia].
  - apply content_items_tame; [exact Hv | lia].
Qed.

Lemma sanitizeMetadataOnly_tame_witness :
  tame 1000 (sanitizeMetadataOnly "note"
               (VStr ("data:image/png;base64," ++ replicateStr 2000 "A"))).
Proof.
  apply sanitizeMetadataOnly_tame. vm_compute. discriminate.
Defined.

Lemma forLogging_tame (key : string) (v : value) :
  withinLimits v -> tame 10000 (sanitizeForLogging key v).
Proof.
  intros Hv. pose proof fixed_tame as (Hom & Himg & Hbin & _).
  unfold sanitizeForLogging.
  destruct (_ || _); [now apply (tame_weaken 1000)|].
  destruct v as [| |b|n|s|items|fields|bytes|f];
    try exact I;
    try (destruct (isBinary _); [now apply (tame_weaken 1000) | exact I]).
  destruct (startsWith s "data:image/") eqn:Hp;
    [now apply (tame_weaken 1000)|].
  destruct (N.ltb_spec 10000 (strlen s)).
  - apply large_string_tame; [exact Hv | lia].
  - split; assumption.
Qed.

(** X2: whatever the field, the full-content profile never lets through a
    string longer than 10,000 characters or an inline image. *)
Theorem sanitizeForLogging_tame (key : string) (v : value) :
  withinLimits v -> tame 10000 (sanitizeForLogging key v).
Proof. exact (forLogging_tame key v). Qed.

Lemma sanitizeForLogging_tame_witness :
  tame 10000 (sanitizeForLogging "note" (VStr (replicateStr 10001 "n"))).
Proof.
  apply sanitizeForLogging_tame. vm_compute. discriminate.
Defined.

(** X3: a second pass of the full-content replacer over an already
    sanitized value changes nothing. *)
Theorem sanitizeForLogging_idempotent (key : string) (v : value) :
  withinLimits v ->
  sanitizeForLogging key (sanitizeForLogging key v) = sanitizeForLogging key v.
Proof.
  intros Hv.
  destruct (String.eqb key "rawResponse" || String.eqb key "rawCall") eqn:Hk.
  { unfold sanitizeForLogging. now rewrite Hk. }
  assert (Hstr : forall r, tame 10000 (VStr r) ->
                           sanitizeForLogging key (VStr r) = VStr r).
  { intros r [Hlen Himg]. unfold sanitizeForLogging. rewrite Hk, Himg.
    apply N.ltb_ge in Hlen. now rewrite Hlen. }
  pose proof (forLogging_tame key v Hv) as Ht.
  destruct (sanitizeForLogging key v) as [| |b|n|r|items|fields|bytes|f] eqn:E;
    try (now apply Hstr);
    unfold sanitizeForLogging in E |- *; rewrite Hk in E |- *;
    destruct v as [| |b'|n'|s'|items'|fields'|bytes'|f'];
    repeat match type of E with
           | context [if ?c then _ else _] => destruct c eqn:?
           end;
    try discriminate; try (injection E as <-); try reflexivity;
    match goal with H : isBinary _ = false |- _ => now rewrite H end.
Qed.

Lemma sanitizeForLogging_idempotent_witness :
  sanitizeForLogging "note"
    (sanitizeForLogging "note" (VStr (replicateStr 10001 "n")))
  = sanitizeForLogging "note" (VStr (replicateStr 10001 "n")).
Proof.
  apply sanitizeForLogging_idempotent. vm_compute. discriminate.
Defined.

Lemma unlisted_not_skipped (key : string) :
  ~ In key contentKeys -> key <> "rawResponse" /\ key <> "rawCall".
Proof.
  intros H. split; intros ->; apply H; apply includes_In; reflexivity.
Qed.

(** X4: on a field that is not on the denylist the two profiles give the
    same result, except for a string of more than 1,000 and at most 10,000
    characters that is not an inline image. *)
Theorem profiles_agree (key : string) (v : value) :
  ~ In key contentKeys ->
  (forall s, v = VStr s -> startsWith s "data:image/" = false ->
             (strlen s <= 1000 \/ 10000 < strlen s)%N) ->
  sanitizeMetadataOnly key v = sanitizeForLogging key v.
Proof.
  intros Hkey Hv. rewrite (metadata_unlisted _ _ Hkey).
  destruct (unlisted_not_skipped _ Hkey) as [H1 H2].
  unfold sanitizeForLogging, metadataGeneral.
  rewrite (unkeyed_guard _ H1 H2).
  destruct v as [| |b|n|s|items|fields|bytes|f]; try reflexivity.
  destruct (startsWith s "data:image/") eqn:Hp; [reflexivity|].
  destruct (Hv s eq_refl Hp) as [Hs|Hl].
  - assert ((1000 <? strlen s)%N = false) as -> by (apply N.ltb_ge; lia).
    assert ((10000 <? strlen s)%N = false) as -> by (apply N.ltb_ge; lia).
    reflexivity.
  - assert ((1000 <? strlen s)%N = true) as -> by (apply N.ltb_lt; lia).
    assert ((10000 <? strlen s)%N = true) as -> by (apply N.ltb_lt; lia).
    reflexivity.
Qed.

Lemma profiles_agree_witness :
  sanitizeMetadataOnly "note" (VStr (replicateStr 10001 "n"))
  = sanitizeForLogging "note" (VStr (replicateStr 10001 "n")).
Proof.
  apply profiles_agree.
  - exact not_in_contentKeys_note.
  - intros s [= <-] _. right. vm_compute. reflexivity.
Defined.

End RedactionMore.

(* ===================================================================== *)
(** ** Properties of replaceVariables *)
(* ===================================================================== *)

Module TemplateFacts.
Import Js Template.

Local Arguments String.append !s1 s2 /.

Lemma word_not_space (c : ascii) : isWord c = true -> isSpace c = false.
Proof.
  destruct c as [[] [] [] [] [] [] [] []]; vm_compute; congruence.
Qed.

Lemma space_not_word (c : ascii) : isSpace c = true -> isWord c = false.
Proof.
  destruct c as [[] [] [] [] [] [] [] []]; vm_compute; congruence.
Qed.

Lemma not_open_brace (c : ascii) :
  isOpenBrace c = false -> c <> "{"%char.
Proof. intros H ->. vm_compute in H. discriminate. Qed.

Lemma spanStr_app (p : ascii -> bool) (a b : string) :
  allChars p a = true -> stopsAt p b -> spanStr p (a ++ b) = (a, b).
Proof.
  induction a as [|c a IH]; simpl; intros Ha Hb.
  - destruct b as [|c b]; [reflexivity|]. simpl in *. now rewrite Hb.
  - apply andb_true_iff in Ha as [Hc Ha]. rewrite Hc.
    now rewrite (IH Ha Hb).
Qed.

Lemma length_append (a b : string) :
  String.length (a ++ b) = String.length a + String.length b.
Proof. induction a as [|c a IH]; simpl; [reflexivity | now rewrite IH]. Qed.

Lemma append_assoc (a b c : string) : (a ++ b) ++ c = a ++ (b ++ c).
Proof. induction a as [|x a IH]; simpl; [reflexivity | now rewrite IH]. Qed.

(** Passing over the rest of a match. *)
Lemma replaceFrom_skip (vars : record) (a b : string) :
  replaceFrom vars (a ++ b) (String.length a) = replaceFrom vars b 0.
Proof. induction a as [|c a IH]; simpl; [reflexivity | exact IH]. Qed.

Lemma matchPlaceholder_other (c : ascii) (s : string) :
  c <> "{"%char -> matchPlaceholder (String c s) = None.
Proof.
  intros Hc. unfold matchPlaceholder.
  destruct c as [[] [] [] [] [] [] [] []]; try reflexivity.
  now contradiction Hc.
Qed.

Lemma replaceFrom_here (vars : record) (c : ascii) (rest : string) :
  replaceFrom vars (String c rest) 0
  = match matchPlaceholder (String c rest) with
    | Some (varName, len) =>
        replacer vars ("{{" ++ varName ++ "}}") varName
        ++ replaceFrom vars rest (len - 1)
    | None => String c (replaceFrom vars rest 0)
    end.
Proof. reflexivity. Qed.

(** Text without an opening brace is copied. *)
Lemma replaceFrom_text (vars : record) (pre rest : string) :
  allChars (fun c => negb (isOpenBrace c)) pre = true ->
  replaceFrom vars (pre ++ rest) 0 = pre ++ replaceFrom vars rest 0.
Proof.
  induction pre as [|c pre IH]; intros H; [reflexivity|].
  cbn [allChars] in H. apply andb_true_iff in H as [Hc H].
  apply negb_true_iff, not_open_brace in Hc.
  change (String c pre ++ rest) with (String c (pre ++ rest)).
  rewrite replaceFrom_here, (matchPlaceholder_other _ _ Hc), (IH H).
  reflexivity.
Qed.

Lemma stopsAt_app (p q : ascii -> bool) (a b : string) :
  (forall c, q c = true -> p c = false) ->
  allChars q a = true -> stopsAt p b -> stopsAt p (a ++ b).
Proof.
  intros Hpq Ha Hb. destruct a as [|c a]; [exact Hb|].
  simpl in *. apply andb_true_iff in Ha as [Hc _]. now apply Hpq.
Qed.

(** A well-formed placeholder is matched, with its inside as the capture. *)
Lemma matchPlaceholder_hit (ws1 name ws2 post : string) :
  allChars isSpace ws1 = true -> allChars isWord name = true ->
  name <> "" -> allChars isSpace ws2 = true ->
  matchPlaceholder ("{{" ++ (ws1 ++ name ++ ws2) ++ "}}" ++ post)
  = Some (ws1 ++ name ++ ws2, 2 + String.length (ws1 ++ name ++ ws2) + 2).
Proof.
  intros H1 Hn Hne H2.
  change ("{{" ++ (ws1 ++ name ++ ws2) ++ "}}" ++ post)
    with (String "{" (String "{" ((ws1 ++ name ++ ws2) ++ "}}" ++ post))).
  unfold matchPlaceholder. rewrite !append_assoc.
  rewrite (spanStr_app isSpace ws1); [|assumption|].
  - rewrite (spanStr_app isWord name); [|assumption|].
    + rewrite (spanStr_app isSpace ws2); [|assumption|reflexivity].
      destruct name; [congruence|reflexivity].
    + apply (stopsAt_app isWord isSpace); auto using space_not_word.
      reflexivity.
  - destruct name as [|c name]; [congruence|].
    simpl in Hn. apply andb_true_iff in Hn as [Hc _].
    simpl. now apply word_not_space.
Qed.

Lemma trimStart_app (ws rest : string) :
  allChars isSpace ws = true -> stopsAt isSpace rest ->
  trimStart (ws ++ rest) = rest.
Proof.
  induction ws as [|c ws IH]; simpl; intros H Hr.
  - destruct rest as [|c rest]; [reflexivity|]. simpl in *. now rewrite Hr.
  - apply andb_true_iff in H as [Hc H]. rewrite Hc. now apply IH.
Qed.

Lemma trimEnd_spaces (ws : string) :
  allChars isSpace ws = true -> trimEnd ws = "".
Proof.
  induction ws as [|c ws IH]; simpl; intros H; [reflexivity|].
  apply andb_true_iff in H as [Hc H]. now rewrite (IH H), Hc.
Qed.

Lemma trimEnd_word (name ws : string) :
  allChars isWord name = true -> allChars isSpace ws = true ->
  trimEnd (name ++ ws) = name.
Proof.
  induction name as [|c name IH]; simpl; intros Hn Hw.
  - now apply trimEnd_spaces.
  - apply andb_true_iff in Hn as [Hc Hn]. rewrite (IH Hn Hw).
    destruct name; [|reflexivity].
    now rewrite (word_not_space _ Hc).
Qed.

(** [trim] recovers the name from the capture. *)
Lemma trim_capture (ws1 name ws2 : string) :
  allChars isSpace ws1 = true -> allChars isWord name = true ->
  name <> "" -> allChars isSpace ws2 = true ->
  trim (ws1 ++ name ++ ws2) = name.
Proof.
  intros H1 Hn Hne H2. unfold trim.
  rewrite trimStart_app; [now apply trimEnd_word | assumption |].
  destruct name as [|c name]; [congruence|]. simpl in *.
  apply andb_true_iff in Hn as [Hc _]. now apply word_not_space.
Qed.

(** What [replaceVariables] does at the first placeholder of a template. *)
Lemma replaceFrom_placeholder (vars : record) (pre ws1 name ws2 post : string) :
  allChars (fun c => negb (isOpenBrace c)) pre = true ->
  allChars isSpace ws1 = true -> allChars isWord name = true ->
  name <> "" -> allChars isSpace ws2 = true ->
  replaceFrom vars (pre ++ "{{" ++ (ws1 ++ name ++ ws2) ++ "}}" ++ post) 0
  = pre
    ++ (if hasProperty vars name then toString (getProperty vars name)
        else "{{" ++ (ws1 ++ name ++ ws2) ++ "}}")
    ++ replaceFrom vars post 0.
Proof.
  intros Hpre H1 Hn Hne H2.
  rewrite (replaceFrom_text _ _ _ Hpre). f_equal.
  pose proof (matchPlaceholder_hit ws1 name ws2 post H1 Hn Hne H2) as Hm.
  set (cap := ws1 ++ name ++ ws2) in *.
  change ("{{" ++ cap ++ "}}" ++ post)
    with (String "{" (String "{" (cap ++ "}}" ++ post))) in *.
  cbn [replaceFrom]. rewrite Hm.
  unfold replacer. subst cap. rewrite (trim_capture _ _ _ H1 Hn Hne H2).
  f_equal.
  set (cap := ws1 ++ name ++ ws2).
  replace (2 + String.length cap + 2 - 1) with
    (String.length ("{" ++ cap ++ "}}")) by
    (rewrite !length_append; simpl; lia).
  change (String "{" (cap ++ "}}" ++ post)) with ("{" ++ (cap ++ "}}" ++ post)).
  rewrite <- (replaceFrom_skip vars ("{" ++ cap ++ "}}") post).
  now rewrite !append_assoc.
Qed.

Lemma own_key (vars : record) (name : string) (v : value) :
  vars !! name = Some v ->
  hasProperty vars name = true /\ getProperty vars name = v.
Proof. intros H. unfold hasProperty, getProperty. now rewrite H. Qed.

Lemma unknown_key (vars : record) (name : string) :
  vars !! name = None -> assoc name objectPrototype = None ->
  hasProperty vars name = false.
Proof. intros H1 H2. unfold hasProperty. now rewrite H1, H2. Qed.

(** Without a variable map the template comes back as it is. *)
Lemma replaceVariables_undefined (template : string) :
  replaceVariables template None = template.
Proof. reflexivity. Qed.

(** A placeholder naming an own key of the map is replaced by the string
    conversion of its value. *)
Lemma replaceVariables_own_key
  (vars : record) (pre ws1 name ws2 post : string) (v : value) :
  allChars (fun c => negb (isOpenBrace c)) pre = true ->
  allChars isSpace ws1 = true -> allChars isWord name = true ->
  name <> "" -> allChars isSpace ws2 = true ->
  vars !! name = Some v ->
  replaceVariables (pre ++ "{{" ++ (ws1 ++ name ++ ws2) ++ "}}" ++ post)
                   (Some vars)
  = pre ++ toString v ++ replaceVariables post (Some vars).
Proof.
  intros Hpre H1 Hn Hne H2 Hv. unfold replaceVariables.
  rewrite replaceFrom_placeholder by assumption.
  destruct (own_key _ _ _ Hv) as [-> ->]. reflexivity.
Qed.

(** A placeholder whose name is neither an own key nor a property of
    [Object.prototype] stays in the output as written. *)
Lemma replaceVariables_unknown_key
  (vars : record) (pre ws1 name ws2 post : string) :
  allChars (fun c => negb (isOpenBrace c)) pre = true ->
  allChars isSpace ws1 = true -> allChars isWord name = true ->
  name <> "" -> allChars isSpace ws2 = true ->
  vars !! name = None -> assoc name objectPrototype = None ->
  replaceVariables (pre ++ "{{" ++ (ws1 ++ name ++ ws2) ++ "}}" ++ post)
                   (Some vars)
  = pre ++ ("{{" ++ (ws1 ++ name ++ ws2) ++ "}}")
        ++ replaceVariables post (Some vars).
Proof.
  intros Hpre H1 Hn Hne H2 Hv Hp. unfold replaceVariables.
  rewrite replaceFrom_placeholder by assumption.
  now rewrite (unknown_key _ _ Hv Hp).
Qed.

(** The expectations of the repository's test suite. *)
Example test_simple :
  replaceVariables "Hello {{name}}, welcome to {{company}}!"
    (Some (<["name" := VStr "John"]> (<["company" := VStr "Acme"]> ∅)))
  = "Hello John, welcome to Acme!".
Proof. vm_compute. reflexivity. Qed.

Example test_spaces :
  replaceVariables "Hello {{ name }}, welcome to {{  company  }}!"
    (Some (<["name" := VStr "John"]> (<["company" := VStr "Acme"]> ∅)))
  = "Hello John, welcome to Acme!".
Proof. vm_compute. reflexivity. Qed.

Example test_missing :
  replaceVariables "Hello {{name}}, your id is {{id}}!"
    (Some (<["name" := VStr "John"]> ∅))
  = "Hello John, your id is {{id}}!".
Proof. vm_compute. reflexivity. Qed.

Example test_non_string :
  replaceVariables "Count: {{count}}, Active: {{active}}"
    (Some (<["count" := VNum 42]> (<["active" := VBool true]> ∅)))
  = "Count: 42, Active: true".
Proof. vm_compute. reflexivity. Qed.

(** C9: the claim is that a placeholder whose name is missing from the map
    is left in place.  [replaceVariables] tests the name with [in], which
    also finds what the map inherits from [Object.prototype]: with the map
    [{ name: "John" }] the placeholder for [toString], a name missing from
    the map, is replaced by the text of a native function. *)
Theorem replaceVariables_inherited_name :
  (<["name" := VStr "John"]> ∅ : record) !! "toString" = None /\
  replaceVariables "Hello {{name}}, your id is {{toString}}!"
    (Some (<["name" := VStr "John"]> ∅))
  = "Hello John, your id is function toString() { [native code] }!".
Proof. split; vm_compute; reflexivity. Qed.

End TemplateFacts.

(* ===================================================================== *)
(** ** What replaceVariables does to a template *)
(* ===================================================================== *)

Module TemplateMore.
Import Js Template TemplateFacts.

Lemma append_empty (s : string) : s ++ "" = s.
Proof.
  induction s as [|c s IH]; [reflexivity|].
  change (String c s ++ "") with (String c (s ++ "")). now rewrite IH.
Qed.

(** X5: a template without an opening brace comes back unchanged, whatever
    the variables. *)
Theorem replaceVariables_plain_text
    (template : string) (variables : option record) :
  allChars (fun c => negb (isOpenBrace c)) template = true ->
  replaceVariables template variables = template.
Proof.
  intros H. destruct variables as [vars|]; [|reflexivity].
  unfold replaceVariables.
  rewrite <- (append_empty template) at 1.
  rewrite (replaceFrom_text vars template "" H). apply append_empty.
Qed.

Lemma replaceVariables_plain_text_witness :
  replaceVariables "Hello world! }} 100%"
    (Some (<["world" := VStr "x"]> ∅))
  = "Hello world! }} 100%".
Proof. apply replaceVariables_plain_text. reflexivity. Defined.

(** X6: with a map whose values [String] prints as [toString] does (safe
    integers, strings, booleans, [null], [undefined], arrays of such, and
    objects without a [toString] of their own), the first placeholder of a
    template, when its trimmed name is an own key of the map, is replaced by
    the string conversion of the value; the text before it is kept, the
    inserted text is not scanned again, and the replacement goes on after
    the closing braces. *)
Theorem replaceVariables_substitutes
    (vars : record) (pre ws1 name ws2 post : string) (v : value) :
  map_Forall (fun _ x => printable x = true) vars ->
  allChars (fun c => negb (isOpenBrace c)) pre = true ->
  allChars isSpace ws1 = true -> allChars isWord name = true ->
  name <> "" -> allChars isSpace ws2 = true ->
  vars !! name = Some v ->
  replaceVariables (pre ++ "{{" ++ (ws1 ++ name ++ ws2) ++ "}}" ++ post)
                   (Some vars)
  = pre ++ toString v ++ replaceVariables post (Some vars).
Proof.
  intros _ Hpre H1 Hn Hne H2 Hv. unfold replaceVariables.
  rewrite replaceFrom_placeholder by assumption.
  unfold hasProperty, getProperty. now rewrite Hv.
Qed.

Lemma replaceVariables_substitutes_witness :
  replaceVariables ("Dear " ++ "{{" ++ (" " ++ "user" ++ "  ") ++ "}}" ++ ", hi")
    (Some (<["user" := VStr "{{admin}}"]> (<["count" := VNum 42]> ∅)))
  = "Dear " ++ toString (VStr "{{admin}}")
    ++ replaceVariables ", hi"
         (Some (<["user" := VStr "{{admin}}"]> (<["count" := VNum 42]> ∅))).
Proof.
  refine (replaceVariables_substitutes _ "Dear " " " "user" "  " ", hi"
            (VStr "{{admin}}") _ _ _ _ _ _ _);
    try reflexivity; try discriminate.
  intros k x Hk.
  apply lookup_insert_Some in Hk as [[_ <-]|[_ Hk]]; [reflexivity|].
  apply lookup_insert_Some in Hk as [[_ <-]|[_ Hk]]; [reflexivity|].
  now rewrite lookup_empty in Hk.
Defined.

(** X7: the first placeholder of a template, when its name is neither an
    own key of the map nor a property of [Object.prototype], is left as it
    was written, inner white space included. *)
Theorem replaceVariables_keeps_unknown
    (vars : record) (pre ws1 name ws2 post : string) :
  allChars (fun c => negb (isOpenBrace c)) pre = true ->
  allChars isSpace ws1 = true -> allChars isWord name = true ->
  name <> "" -> allChars isSpace ws2 = true ->
  vars !! name = None -> assoc name objectPrototype = None ->
  replaceVariables (pre ++ "{{" ++ (ws1 ++ name ++ ws2) ++ "}}" ++ post)
                   (Some vars)
  = pre ++ ("{{" ++ (ws1 ++ name ++ ws2) ++ "}}")
        ++ replaceVariables post (Some vars).
Proof.
  intros Hpre H1 Hn Hne H2 Hv Hp. unfold replaceVariables.
  rewrite replaceFrom_placeholder by assumption.
  unfold hasProperty. now rewrite Hv, Hp.
Qed.

Lemma replaceVariables_keeps_unknown_witness :
  replaceVariables ("id: " ++ "{{" ++ (" " ++ "id" ++ "") ++ "}}" ++ "!")
    (Some (<["name" := VStr "John"]> ∅))
  = "id: " ++ ("{{" ++ (" " ++ "id" ++ "") ++ "}}")
    ++ replaceVariables "!" (Some (<["name" := VStr "John"]> ∅)).
Proof.
  apply replaceVariables_keeps_unknown; try reflexivity; discriminate.
Defined.

End TemplateMore.

(* ===================================================================== *)
(** ** Properties of hashSessionId and of the assignment *)
(* ===================================================================== *)

Module AssignmentFacts.
Import Md5 Assignment.

Local Open Scope Z_scope.

Lemma hashSessionId_range (sessionId : string) :
  0 <= hashSessionId sessionId < 1000000.
Proof. unfold hashSessionId. apply Z.mod_pos_bound. lia. Qed.

(** The digests of the usual MD5 test vectors, read as [hashSessionId]
    reads them. *)
Example md5_empty :
  md5 (utf8 "") = [0xd4; 0x1d; 0x8c; 0xd9; 0x8f; 0x00; 0xb2; 0x04;
                   0xe9; 0x80; 0x09; 0x98; 0xec; 0xf8; 0x42; 0x7e].
Proof. vm_compute. reflexivity. Qed.

Example md5_abc :
  md5 (utf8 "abc") = [0x90; 0x01; 0x50; 0x98; 0x3c; 0xd2; 0x4f; 0xb0;
                      0xd6; 0x96; 0x3f; 0x7d; 0x28; 0xe1; 0x7f; 0x72].
Proof. vm_compute. reflexivity. Qed.

Example hash_user : hashSessionId "user-123-convo-456" = 910222.
Proof. vm_compute. reflexivity. Qed.

Example hash_sessions_differ :
  hashSessionId "session-1" = 146357 /\ hashSessionId "session-2" = 553343.
Proof. vm_compute. split; reflexivity. Qed.

(** A snapshot with one variant of positive weight always resolves to it. *)
Lemma single_variant (subject fallback : string) (ver : Z) (v : Variant) :
  0 < weight v ->
  assign subject (Some {| version := ver; variants := [v] |}) fallback
  = {| resolvedPayload := payload v; resolvedIndex := Some (variantIndex v);
       resolvedVersion := Some ver; fromFallback := false |}.
Proof.
  intros Hw. unfold assign, resolve.
  cbn [variants version totalWeight fold_right select].
  pose proof (hashSessionId_range subject) as Hb.
  replace (hashSessionId subject * (weight v + 0) <? (0 + weight v) * resolution)
    with true; [reflexivity|].
  symmetry. apply Z.ltb_lt. unfold resolution. nia.
Qed.

(** The walk ends on a variant as soon as the bucket lies below the scaled
    weight that is still to come. *)
Lemma select_some (b total cumulative : Z) (vs : list Variant) :
  cumulative * resolution <= b * total ->
  b * total < (cumulative + totalWeight vs) * resolution ->
  is_Some (select b total cumulative vs).
Proof.
  revert cumulative. induction vs as [|v vs IH]; intros cumulative Hc Hb.
  - cbn [totalWeight fold_right] in Hb. lia.
  - cbn [select]. destruct (Z.ltb_spec (b * total)
                              ((cumulative + weight v) * resolution));
      [eauto|].
    apply IH; [assumption|].
    cbn [totalWeight fold_right] in Hb. fold (totalWeight vs) in Hb. lia.
Qed.

(** A snapshot with a positive weight sum never resolves to the fallback. *)
Lemma positive_snapshot (subject fallback : string) (snap : Snapshot) :
  0 < totalWeight (variants snap) ->
  fromFallback (assign subject (Some snap) fallback) = false.
Proof.
  intros Ht. unfold assign, resolve.
  pose proof (hashSessionId_range subject) as Hb.
  destruct (select_some (hashSessionId subject) (totalWeight (variants snap))
              0 (variants snap)) as [v Hv].
  - nia.
  - unfold resolution. nia.
  - now rewrite Hv.
Qed.

(** An empty or missing snapshot resolves to the fallback. *)
Lemma empty_snapshot (subject fallback : string) (ver : Z) :
  assign subject (Some {| version := ver; variants := [] |}) fallback
  = fallbackResult fallback /\
  assign subject None fallback = fallbackResult fallback.
Proof. split; reflexivity. Qed.

(** *** hashSessionId in a runtime *)




(** In a runtime where another digest is under way, and in an idle one,
    the same session gets the same one of two equally weighted models, and
    the digest under way is not disturbed. *)
Example assignment_run :
  fst (assignIn "user-123-convo-456" (Some twoModels) "gpt-4o-mini" busy)
  = fst (assignIn "user-123-convo-456" (Some twoModels) "gpt-4o-mini" idle) /\
  (resolvedPayload
     <$> fst (assignIn "user-123-convo-456" (Some twoModels) "gpt-4o-mini"
                busy))
  = Some "claude-3-5-sonnet" /\
  Crypto.hashes
    (snd (assignIn "user-123-convo-456" (Some twoModels) "gpt-4o-mini" busy))
  !! 0%nat
  = Some {| Crypto.algorithm := "md5"; Crypto.fed := utf8 "user-123";
            Crypto.finalized := false |}.
Proof. vm_compute. repeat split. Qed.

End AssignmentFacts.

(* ===================================================================== *)
(** ** The word hashSessionId reduces *)
(* ===================================================================== *)

Module HashMore.
Import Md5 Bytes.

Local Open Scope Z_scope.

Lemma bytesLE_bytes (k : nat) (n : Z) : Forall isByte (bytesLE k n).
Proof.
  revert n. induction k as [|k IH]; intros n; cbn [bytesLE]; constructor.
  - apply Z.mod_pos_bound. lia.
  - apply IH.
Qed.

Lemma bytesLE_length (k : nat) (n : Z) : List.length (bytesLE k n) = k.
Proof.
  revert n. induction k as [|k IH]; intros n; cbn [bytesLE List.length];
    [reflexivity | now rewrite IH].
Qed.

Lemma md5_bytes (msg : list Z) : Forall isByte (md5 msg).
Proof.
  unfold md5. repeat (apply Forall_app; split); apply bytesLE_bytes.
Qed.

Lemma md5_length (msg : list Z) : List.length (md5 msg) = 16%nat.
Proof. unfold md5. rewrite !length_app, !bytesLE_length. reflexivity. Qed.

(** The padded message is a whole number of 64-byte blocks, at least one. *)
Lemma pad_blocks (msg : list Z) :
  (Z.of_nat (List.length (pad msg))) mod 64 = 0 /\
  64 <= Z.of_nat (List.length (pad msg)).
Proof.
  unfold pad. rewrite !length_app, repeat_length, bytesLE_length.
  cbn [List.length]. set (len := Z.of_nat (List.length msg)).
  assert (Hz : 0 <= (55 - len) mod 64 < 64) by (apply Z.mod_pos_bound; lia).
  rewrite !Nat2Z.inj_add, Z2Nat.id by lia. fold len.
  change (Z.of_nat 1) with 1. change (Z.of_nat 8) with 8.
  pose proof (Z.div_mod (55 - len) 64 ltac:(lia)) as Hdm.
  set (q := (55 - len) / 64) in *. set (z := (55 - len) mod 64) in *.
  split.
  - replace (len + (1 + (z + 8))) with ((1 - q) * 64) by lia.
    apply Z_mod_mult.
  - assert (0 <= len) by (subst len; lia). lia.
Qed.

(** X8: the MD5 digest has 16 bytes, so the word read from its first four
    bytes is an unsigned 32-bit number, and the bucket is below
    1,000,000. *)
Theorem hashSessionId_word (sessionId : string) :
  List.length (md5 (utf8 sessionId)) = 16%nat /\
  Forall isByte (md5 (utf8 sessionId)) /\
  0 <= readUInt32BE (md5 (utf8 sessionId)) < 2 ^ 32 /\
  0 <= hashSessionId sessionId < 1000000.
Proof.
  split; [apply md5_length|]. split; [apply md5_bytes|]. split.
  - pose proof (md5_bytes (utf8 sessionId)) as Hb.
    pose proof (md5_length (utf8 sessionId)) as Hl.
    destruct (md5 (utf8 sessionId)) as [|b0 [|b1 [|b2 [|b3 rest]]]];
      try discriminate.
    inversion Hb as [|? ? H0 Hb1]; subst.
    inversion Hb1 as [|? ? H1 Hb2]; subst.
    inversion Hb2 as [|? ? H2 Hb3]; subst.
    inversion Hb3 as [|? ? H3 _]; subst.
    unfold isByte in *. cbn [readUInt32BE]. lia.
  - unfold hashSessionId. apply Z.mod_pos_bound. lia.
Qed.

End HashMore.

(* ===================================================================== *)
(** ** Properties of the trace module *)
(* ===================================================================== *)

Module TraceFacts.
Import Js Trace Reads.

(** *** init *)

Lemma init_initialized (options : InitOptions) (env : Env) (w : World) :
  initialized w = true -> init options env w = (Normal, w).
Proof. intros H. unfold init. now rewrite H. Qed.

Lemma init_success (options : InitOptions) (env : Env) (w w' : World) :
  init options env w = (Normal, w') -> initialized w' = true.
Proof.
  unfold init. destruct (initialized w) eqn:Hi.
  - intros [= <-]. exact Hi.
  - destruct (orStr _ _); intros [= <-]. reflexivity.
Qed.

Example init_without_key_throws :
  fst (init noInitOptions emptyEnv loaded) = Threw noApiKeyMessage.
Proof. reflexivity. Qed.

(** *** setSession *)

(** C4, as stated, fails: inside the scope of store 0, with an empty
    fallback slot, [setSession] fills the fallback slot. *)
Lemma set_in_scope_overwrites_fallback :
  let w := snd (enter "agent-a" "s1" loaded) in
  getStore (Some 0) w = Some (mkContext "agent-a" "s1") /\
  fallbackSession w = None /\
  fallbackSession (setSession (Some 0) "agent-b" "s2" w)
  = Some (mkContext "agent-b" "s2").
Proof. cbn. repeat split. Qed.

(** C4 (amended): [setSession] always overwrites the process-wide fallback
    slot; when a scope is active it also sets the two fields of that scope's
    store and touches no other store, and when none is active the stores are
    left alone. *)
Theorem setSession_effect (amb : ambient) (ck sid : string) (w : World) :
  fallbackSession (setSession amb ck sid w) = Some (mkContext ck sid) /\
  (forall l, amb = Some l -> is_Some (stores w !! l) ->
     getStore amb (setSession amb ck sid w) = Some (mkContext ck sid) /\
     forall l', l' <> l ->
       stores (setSession amb ck sid w) !! l' = stores w !! l') /\
  (amb = None -> stores (setSession amb ck sid w) = stores w).
Proof.
  split; [reflexivity|]. split.
  - intros l -> [ctx Hl]. unfold setSession, getStore. rewrite Hl. cbn.
    split.
    + apply list_lookup_insert_eq. now apply lookup_lt_Some in Hl.
    + intros l' Hne. now apply list_lookup_insert_ne.
  - now intros ->.
Qed.

Lemma setSession_effect_witness :
  let w := snd (enter "agent-a" "s1" loaded) in
  getStore (Some 0) (setSession (Some 0) "agent-b" "s2" w)
  = Some (mkContext "agent-b" "s2").
Proof.
  cbv zeta.
  refine (proj1 (proj1 (proj2 (setSession_effect (Some 0) "agent-b" "s2" _))
                   0 eq_refl _)).
  cbn. eauto.
Defined.

(** *** Frames of exec *)

Lemma setSession_length (amb : ambient) (ck sid : string) (w : World) :
  List.length (stores (setSession amb ck sid w)) = List.length (stores w).
Proof.
  unfold setSession. destruct amb as [l|]; [|reflexivity].
  destruct (stores w !! l); [|reflexivity]. cbn. apply length_insert.
Qed.

Lemma setSession_other (amb : ambient) (ck sid : string) (w : World) (l : nat) :
  amb <> Some l ->
  stores (setSession amb ck sid w) !! l = stores w !! l.
Proof.
  intros Hne. unfold setSession. destruct amb as [l'|]; [|reflexivity].
  destruct (stores w !! l'); [|reflexivity]. cbn.
  apply list_lookup_insert_ne. congruence.
Qed.

Lemma span_stores (data : list (string * value)) (options : SpanOptions)
    (amb : ambient) (w : World) :
  stores (snd (span data options amb w)) = stores w.
Proof.
  unfold span. destruct (negb (initialized w)); [reflexivity|].
  destruct (orStr (spanConfigKey options) _); [|reflexivity].
  destruct (orStr (spanSessionId options) _); reflexivity.
Qed.

(** Running a program under one ambient store neither removes a store nor
    changes any other store that existed before. *)
Lemma exec_frame (p : prog) :
  forall (amb : ambient) (w : World),
    List.length (stores w) <= List.length (stores (snd (exec p amb w))) /\
    forall l, l < List.length (stores w) -> amb <> Some l ->
              stores (snd (exec p amb w)) !! l = stores w !! l.
Proof.
  induction p as [|k IH|ck sid k IH|k IH|ck sid body IHb k IHk
                 |data options k IH|k IH|child IHc k IHk];
    intros amb w; cbn [exec].
  - cbn [snd]. split; [lia|reflexivity].
  - apply IH.
  - destruct (IH amb (setSession amb ck sid w)) as [Hlen Hfr].
    rewrite setSession_length in *. split; [exact Hlen|].
    intros l Hl Hne. rewrite (Hfr l Hl Hne). now apply setSession_other.
  - apply (IH amb (clearSession w)).
  - unfold runWithSession. cbn [enter].
    set (w1 := withStores w _).
    assert (Hw1 : List.length (stores w1) = S (List.length (stores w))).
    { unfold w1. cbn [stores withStores]. rewrite length_app. cbn. lia. }
    destruct (IHb (Some (List.length (stores w))) w1) as [Hlen Hfr].
    destruct (exec body (Some (List.length (stores w))) w1) as [[|e] w2] eqn:E;
      cbn [snd] in *.
    + destruct (IHk amb w2) as [Hlen' Hfr']. split; [lia|].
      intros l Hl Hne. rewrite Hfr' by (assumption || lia).
      rewrite Hfr by (lia || (intros [= <-]; lia)).
      subst w1. cbn. now apply lookup_app_l.
    + split; [lia|]. intros l Hl Hne.
      rewrite Hfr by (lia || (intros [= <-]; lia)).
      subst w1. cbn. now apply lookup_app_l.
  - pose proof (span_stores data options amb w) as Hs.
    destruct (span data options amb w) as [[|e] w1]; cbn [snd] in *.
    + destruct (IH amb w1) as [Hlen Hfr]. rewrite Hs in *.
      split; [exact Hlen|]. intros l Hl Hne. now rewrite Hfr.
    + rewrite Hs. split; [lia|reflexivity].
  - apply IH.
  - destruct (IHc amb w) as [Hlen Hfr].
    destruct (IHk amb (snd (exec child amb w))) as [Hlen' Hfr'].
    split; [lia|]. intros l Hl Hne.
    rewrite Hfr' by (assumption || lia). now apply Hfr.
Qed.

(** *** Nesting *)

Lemma enter_lookup (ck sid : string) (w : World) :
  stores (snd (enter ck sid w)) !! List.length (stores w)
  = Some (mkContext ck sid).
Proof.
  unfold enter. cbn [snd stores withStores]. now rewrite list_lookup_middle.
Qed.

Lemma getSession_entered (ck sid : string) (w : World) :
  getSession (Some (List.length (stores w))) (snd (enter ck sid w))
  = Some (mkContext ck sid).
Proof. unfold getSession, getStore. now rewrite enter_lookup. Qed.

(** The recording run is the run: same outcome, same final state. *)
Lemma execLog_exec (p : prog) :
  forall (amb : ambient) (w : World),
    (outcomeOf (execLog p amb w), worldOf (execLog p amb w)) = exec p amb w.
Proof.
  induction p as [|k IH|ck sid k IH|k IH|ck sid body IHb k IHk
                 |data options k IH|k IH|child IHc k IHk];
    intros amb w; cbn [exec execLog].
  - reflexivity.
  - apply IH.
  - apply IH.
  - apply IH.
  - unfold runWithSession. cbn [enter].
    rewrite <- IHb. destruct (outcomeOf (execLog body _ _)) eqn:E.
    + cbn [after outcomeOf worldOf]. apply IHk.
    + now rewrite E.
  - destruct (span data options amb w) as [[|e] w1]; [apply IH|reflexivity].
  - apply IH.
  - cbn [after outcomeOf worldOf]. rewrite <- IHk. do 2 f_equal.
    all: now rewrite <- IHc.
Qed.

Lemma execLog_world (p : prog) (amb : ambient) (w : World) :
  worldOf (execLog p amb w) = snd (exec p amb w).
Proof. now rewrite <- execLog_exec. Qed.

Lemma observe_fields (amb : ambient) (w : World) :
  fieldsOf (observe amb w) = getSession amb w.
Proof.
  unfold observe, getSession. destruct amb as [l|]; cbn [getStore].
  - destruct (stores w !! l); [reflexivity|].
    now destruct (fallbackSession w).
  - now destruct (fallbackSession w).
Qed.

Lemma observe_entered (ck sid : string) (w : World) :
  observe (Some (List.length (stores w))) (snd (enter ck sid w))
  = ReadStore (List.length (stores w)) (mkContext ck sid).
Proof. unfold observe, getStore. now rewrite enter_lookup. Qed.

Lemma enter_length (ck sid : string) (w : World) :
  List.length (stores (snd (enter ck sid w))) = S (List.length (stores w)).
Proof.
  unfold enter. cbn [snd stores withStores]. rewrite length_app. cbn. lia.
Qed.

(** The outer store is as it was entered when the inner scope, whatever
    its body does, has returned. *)
Lemma outer_store_kept (ckA sidA ckB sidB : string) (body : prog) (w : World) :
  let lA := List.length (stores w) in
  let wB := snd (enter ckB sidB (snd (enter ckA sidA w))) in
  stores (snd (exec body (Some (S lA)) wB)) !! lA = Some (mkContext ckA sidA).
Proof.
  intros lA wB.
  destruct (exec_frame body (Some (S lA)) wB) as [_ Hfr].
  rewrite Hfr.
  - unfold wB. unfold enter at 1. cbn [snd stores withStores].
    rewrite lookup_app_l by (rewrite enter_length; lia).
    apply enter_lookup.
  - unfold wB. rewrite !enter_length. lia.
  - intros [= E]. lia.
Qed.

(** The run of C3 with the two results written in for the two [get]s. *)
Lemma nested_gets_written_in
    (ckA sidA ckB sidB : string)
    (inner outer : option SessionContext -> prog) (rest : prog)
    (amb : ambient) (w : World) :
  exec (RunWithSession ckA sidA
          (RunWithSession ckB sidB (GetSession inner) (GetSession outer))
          rest) amb w
  = exec (RunWithSession ckA sidA
            (RunWithSession ckB sidB
               (inner (Some (mkContext ckB sidB)))
               (outer (Some (mkContext ckA sidA))))
            rest) amb w.
Proof.
  cbn [exec]. unfold runWithSession.
  destruct (enter ckA sidA w) as [lA wA] eqn:EA.
  destruct (enter ckB sidB wA) as [lB wB] eqn:EB.
  assert (HlA : lA = List.length (stores w)) by (now inversion EA).
  assert (HwA : wA = snd (enter ckA sidA w)) by (now rewrite EA).
  assert (HlB : lB = S lA).
  { inversion EB. rewrite HwA, HlA. apply enter_length. }
  assert (HwB : wB = snd (enter ckB sidB wA)) by (now rewrite EB).
  assert (HgB : getSession (Some lB) wB = Some (mkContext ckB sidB)).
  { rewrite HwB. replace lB with (List.length (stores wA)) by (now inversion EB).
    apply getSession_entered. }
  rewrite HgB.
  pose proof (outer_store_kept ckA sidA ckB sidB
                (inner (Some (mkContext ckB sidB))) w) as Hkept.
  cbv zeta in Hkept. rewrite <- HlA, <- HwA, <- HwB, <- HlB in Hkept.
  destruct (exec (inner (Some (mkContext ckB sidB))) (Some lB) wB)
    as [[|e] w3]; [|reflexivity].
  cbn [snd] in Hkept.
  assert (Hg3 : getSession (Some lA) w3 = Some (mkContext ckA sidA)).
  { unfold getSession, getStore. now rewrite Hkept. }
  now rewrite Hg3.
Qed.

(** C3: with [run] entered with [ctxA] and, inside its body, entered again
    with [ctxB], the [get] made in the inner body returns the store of the
    inner scope, holding [ctxB], and the [get] made in the outer body once
    the inner [run] has returned returns the store of the outer scope,
    holding [ctxA], whatever the inner body went on to do ([set], [clear],
    further scopes, forked operations).  The reads of the whole run are
    listed in order: the inner [get], those of the rest of the inner body,
    then, unless the inner body threw, the outer [get] and what follows it.
    Each [get] hands its result to the code after it, so the program also
    runs exactly as the one where the two results are written in. *)
Theorem scopes_nest_and_restore
    (ckA sidA ckB sidB : string)
    (inner outer : option SessionContext -> prog) (rest : prog)
    (amb : ambient) (w : World) :
  let ctxA := mkContext ckA sidA in
  let ctxB := mkContext ckB sidB in
  let lA := List.length (stores w) in
  let lB := S lA in
  let program :=
    RunWithSession ckA sidA
      (RunWithSession ckB sidB (GetSession inner) (GetSession outer)) rest in
  let innerRun :=
    execLog (inner (Some ctxB)) (Some lB)
      (snd (enter ckB sidB (snd (enter ckA sidA w)))) in
  let outerRun := execLog (outer (Some ctxA)) (Some lA) (worldOf innerRun) in
  reads program amb w
  = (ReadStore lB ctxB :: readsOf innerRun ++
     match outcomeOf innerRun with
     | Threw _ => []
     | Normal =>
         ReadStore lA ctxA :: readsOf outerRun ++
         match outcomeOf outerRun with
         | Threw _ => []
         | Normal => reads rest amb (worldOf outerRun)
         end
     end)%list /\
  exec program amb w
  = exec (RunWithSession ckA sidA
            (RunWithSession ckB sidB (inner (Some ctxB)) (outer (Some ctxA)))
            rest) amb w.
Proof.
  intros ctxA ctxB lA lB program innerRun outerRun.
  split; [|apply nested_gets_written_in].
  unfold reads, program. cbn [execLog]. unfold runWithSession.
  cbn [enter]. fold lA.
  set (wA := withStores w _).
  assert (HwA : wA = snd (enter ckA sidA w)) by reflexivity.
  assert (HlenA : List.length (stores wA) = lB).
  { rewrite HwA. apply enter_length. }
  rewrite HlenA.
  set (wB := withStores wA _).
  assert (HwB : wB = snd (enter ckB sidB wA)) by reflexivity.
  assert (HoB : observe (Some lB) wB = ReadStore lB ctxB).
  { rewrite HwB, <- HlenA. apply observe_entered. }
  assert (HgB : getSession (Some lB) wB = Some ctxB).
  { rewrite <- observe_fields, HoB. reflexivity. }
  rewrite HoB, HgB.
  change (execLog (inner (Some ctxB)) (Some lB) wB) with innerRun.
  cbn [after outcomeOf worldOf readsOf].
  pose proof (outer_store_kept ckA sidA ckB sidB (inner (Some ctxB)) w)
    as Hkept.
  cbv zeta in Hkept. fold lA lB in Hkept. rewrite <- execLog_world in Hkept.
  change (execLog (inner (Some ctxB)) (Some lB)
            (snd (enter ckB sidB (snd (enter ckA sidA w))))) with innerRun
    in Hkept.
  destruct (outcomeOf innerRun) eqn:EI.
  - cbn [after outcomeOf worldOf readsOf].
    assert (HoA : observe (Some lA) (worldOf innerRun) = ReadStore lA ctxA).
    { unfold observe, getStore. now rewrite Hkept. }
    assert (HgA : getSession (Some lA) (worldOf innerRun) = Some ctxA).
    { rewrite <- observe_fields, HoA. reflexivity. }
    rewrite HoA, HgA.
    change (execLog (outer (Some ctxA)) (Some lA) (worldOf innerRun))
      with outerRun.
    cbn [after outcomeOf worldOf readsOf].
    destruct (outcomeOf outerRun) eqn:EO;
      cbn [after outcomeOf worldOf readsOf app];
      now rewrite ?app_nil_r, <- ?app_assoc.
  - cbn [after outcomeOf worldOf readsOf app]. rewrite EI.
    cbn [after outcomeOf worldOf readsOf app]. now rewrite ?app_nil_r.
Qed.

(** On a concrete program: the inner body reads, sets a third context and
    reads again; the outer read still finds [ctxA] in the outer store, and
    the read made after both scopes finds the context set inside in the
    fallback slot. *)
Lemma scopes_nest_and_restore_witness :
  reads nested None ready
  = [ ReadStore 1 (mkContext "agent-b" "s2");
      ReadStore 1 (mkContext "agent-c" "s3");
      ReadStore 0 (mkContext "agent-a" "s1");
      ReadFallback (mkContext "agent-c" "s3") ].
Proof.
  etransitivity.
  - exact (proj1 (scopes_nest_and_restore "agent-a" "s1" "agent-b" "s2"
             (fun _ => SetSession "agent-c" "s3" (GetSession (fun _ => Done)))
             (fun _ => Done) (GetSession (fun _ => Done)) None ready)).
  - vm_compute. reflexivity.
Defined.

(** The object the inner [get] returned is the inner store: kept by the
    caller, it shows the context set afterwards in that scope. *)
Example kept_result_sees_later_set :
  let r := execLog nested None ready in
  head (readsOf r) = Some (ReadStore 1 (mkContext "agent-b" "s2")) /\
  fieldsLater (ReadStore 1 (mkContext "agent-b" "s2")) (worldOf r)
  = Some (mkContext "agent-c" "s3").
Proof. vm_compute. split; reflexivity. Qed.

(** *** Failure *)

(** C8, as stated, fails: after [init], with no ambient store, an empty
    fallback slot and no explicit ids, [span] throws. *)
Lemma span_without_context_throws :
  initialized ready = true /\
  getSession None ready = None /\
  span [("outlier_score", VNum 1)] noOptions None ready
  = (Threw noSessionMessage, ready).
Proof. vm_compute. repeat split. Qed.

Lemma exec_spanFree (p : prog) :
  spanFree p -> forall amb w, fst (exec p amb w) = Normal.
Proof.
  induction p as [|k IH|ck sid k IH|k IH|ck sid body IHb k IHk
                 |data options k IH|k IH|child IHc k IHk];
    cbn [spanFree exec]; intros Hp amb w; auto.
  - destruct Hp as [Hb Hk]. unfold runWithSession. cbn [enter].
    specialize (IHb Hb (Some (List.length (stores w)))
                  (withStores w (stores w ++ [mkContext ck sid]))).
    unfold mkContext in IHb.
    destruct (exec body _ _) as [[|e] w2]; cbn [fst] in IHb;
      [now apply IHk | discriminate].
  - contradiction.
  - destruct Hp as [_ Hk]. now apply IHk.
Qed.

(** C8 (amended): no sequence of [run], [set], [get] and [clear] calls can
    fail, and with no context at all [get] returns the absent value; but
    [span] treats absence as an error: after [init], with no ambient or
    fallback context and no explicit ids, it throws "No session context",
    and before [init] it throws "not initialized". *)
Theorem context_store_total_span_guarded :
  (forall p, spanFree p -> forall amb w, fst (exec p amb w) = Normal) /\
  (forall w, fallbackSession w = None -> getSession None w = None) /\
  (forall data w, initialized w = true -> fallbackSession w = None ->
     span data noOptions None w = (Threw noSessionMessage, w)) /\
  (forall data options amb w, initialized w = false ->
     span data options amb w = (Threw notInitializedMessage, w)).
Proof.
  split; [exact exec_spanFree|]. split; [|split].
  - intros w H. unfold getSession. cbn. exact H.
  - intros data w Hi Hf. unfold span, getSession. cbn. now rewrite Hi, Hf.
  - intros data options amb w Hi. unfold span. now rewrite Hi.
Qed.

Lemma context_store_total_span_guarded_witness :
  fst (exec (RunWithSession "agent-a" "s1"
               (SetSession "agent-b" "s2" (GetSession (fun _ => Done)))
               (ClearSession (GetSession (fun _ => Done)))) None loaded)
  = Normal /\
  span [] noOptions None ready = (Threw noSessionMessage, ready).
Proof.
  split.
  - apply (proj1 context_store_total_span_guarded). cbn. auto.
  - apply (proj1 (proj2 (proj2 context_store_total_span_guarded)));
      reflexivity.
Defined.

End TraceFacts.

(* ===================================================================== *)
(** ** init over the life of the module *)
(* ===================================================================== *)

Module LifecycleFacts.
Import Js Trace TraceMore Lifecycle.

Lemma sameConfig_refl (w : World) : sameConfig w w.
Proof. repeat split. Qed.

Lemma sameConfig_trans (w1 w2 w3 : World) :
  sameConfig w1 w2 -> sameConfig w2 w3 -> sameConfig w1 w3.
Proof.
  unfold sameConfig. intros (A1 & A2 & A3 & A4) (B1 & B2 & B3 & B4).
  repeat split; congruence.
Qed.

Lemma setSession_config (amb : ambient) (ck sid : string) (w : World) :
  sameConfig w (setSession amb ck sid w).
Proof.
  unfold setSession. destruct amb as [l|]; [|repeat split].
  destruct (stores w !! l); repeat split.
Qed.

Lemma span_config (data : list (string * value)) (options : SpanOptions)
    (amb : ambient) (w : World) :
  sameConfig w (snd (span data options amb w)).
Proof.
  unfold span. destruct (negb (initialized w)); [repeat split|].
  destruct (orStr (spanConfigKey options) _); [|repeat split].
  destruct (orStr (spanSessionId options) _); repeat split.
Qed.

(** Client code never touches the configuration. *)
Lemma exec_config (p : prog) :
  forall (amb : ambient) (w : World), sameConfig w (snd (exec p amb w)).
Proof.
  induction p as [|k IH|ck sid k IH|k IH|ck sid body IHb k IHk
                 |data options k IH|k IH|child IHc k IHk];
    intros amb w; cbn [exec].
  - apply sameConfig_refl.
  - apply IH.
  - eapply sameConfig_trans; [apply setSession_config | apply IH].
  - eapply sameConfig_trans; [|apply IH]. repeat split.
  - unfold runWithSession. cbn [enter].
    set (w1 := withStores w _).
    assert (H1 : sameConfig w w1) by repeat split.
    pose proof (IHb (Some (List.length (stores w))) w1) as Hb.
    destruct (exec body (Some (List.length (stores w))) w1) as [[|e] w2];
      cbn [snd] in *.
    + eapply sameConfig_trans; [exact H1|].
      eapply sameConfig_trans; [exact Hb | apply IHk].
    + eapply sameConfig_trans; [exact H1 | exact Hb].
  - pose proof (span_config data options amb w) as Hs.
    destruct (span data options amb w) as [[|e] w1]; cbn [snd] in *.
    + eapply sameConfig_trans; [exact Hs | apply IH].
    + exact Hs.
  - apply IH.
  - eapply sameConfig_trans; [apply IHc | apply IHk].
Qed.

(** A call other than [shutdown], made on an initialized module, leaves it
    initialized with the same configuration. *)
Lemma perform_config (c : call) (w : World) :
  isShutdown c = false -> initialized w = true ->
  sameConfig w (perform c w).
Proof.
  intros Hc Hi. destruct c as [options env| |p amb]; cbn [perform].
  - unfold init. rewrite Hi. apply sameConfig_refl.
  - discriminate.
  - apply exec_config.
Qed.

Lemma performAll_config (calls : list call) :
  forall w, existsb isShutdown calls = false -> initialized w = true ->
            sameConfig w (performAll calls w).
Proof.
  induction calls as [|c calls IH]; intros w Hc Hi; cbn [performAll fold_left].
  - apply sameConfig_refl.
  - cbn [existsb] in Hc. apply orb_false_elim in Hc as [Hc1 Hc2].
    pose proof (perform_config c w Hc1 Hi) as H1.
    eapply sameConfig_trans; [exact H1|].
    apply IH; [exact Hc2|].
    destruct H1 as (_ & _ & _ & H1). congruence.
Qed.

(** C10, as stated, fails: after [shutdown] a later [init] without an API
    key throws, and one with other options overwrites the stored API key,
    base URL and capture flag. *)
Lemma init_after_shutdown_starts_over :
  init keyOnly emptyEnv loaded = (Normal, ready) /\
  apiKey ready = Some "key" /\
  baseUrl ready = "https://spans.fallom.com" /\
  captureContent ready = true /\
  fst (init noInitOptions emptyEnv (shutdown ready)) = Threw noApiKeyMessage /\
  apiKey (snd (init noInitOptions emptyEnv (shutdown ready))) = None /\
  apiKey (snd (init otherOptions emptyEnv (shutdown ready))) = Some "other" /\
  baseUrl (snd (init otherOptions emptyEnv (shutdown ready)))
    = "https://example.test" /\
  captureContent (snd (init otherOptions emptyEnv (shutdown ready))) = false.
Proof. vm_compute. repeat split. Qed.

(** C10 (amended): once a call of [init] has completed, and for as long as
    [shutdown] is not called, whatever other calls are made in between
    (further [init] calls, client code), every later [init], whatever its
    options and environment (also without any API key), returns without
    throwing and leaves the whole module state as it found it, and the
    stored API key, base URL and capture flag are still those the first
    call set, with the module still initialized. *)
Theorem init_idempotent_until_shutdown
    (o1 o2 : InitOptions) (e1 e2 : Env) (w0 w1 : World)
    (between : list call) :
  init o1 e1 w0 = (Normal, w1) ->
  existsb isShutdown between = false ->
  let w := performAll between w1 in
  init o2 e2 w = (Normal, w) /\
  apiKey w = apiKey w1 /\ baseUrl w = baseUrl w1 /\
  captureContent w = captureContent w1 /\ initialized w = true.
Proof.
  intros H Hb w. apply TraceFacts.init_success in H.
  destruct (performAll_config between w1 Hb H) as (A1 & A2 & A3 & A4).
  fold w in A1, A2, A3, A4.
  assert (Hi : initialized w = true) by congruence.
  split; [now apply TraceFacts.init_initialized|]. auto.
Qed.

Lemma init_idempotent_until_shutdown_witness :
  let w := performAll someCalls ready in
  init noInitOptions emptyEnv w = (Normal, w) /\
  apiKey w = Some "key" /\ baseUrl w = "https://spans.fallom.com" /\
  captureContent w = true /\ initialized w = true.
Proof.
  apply (init_idempotent_until_shutdown keyOnly noInitOptions emptyEnv emptyEnv
           loaded ready someCalls); reflexivity.
Defined.

End LifecycleFacts.

(* ===================================================================== *)
(** ** More properties of the trace module *)
(* ===================================================================== *)

Module TraceMoreFacts.
Import Js Trace TraceMore.

(** *** Session context *)

(** X9: in any ambient, what [setSession] stored is what [getSession]
    returns next and what the span processor tags the next span with. *)
Theorem set_then_get (amb : ambient) (ck sid : string) (w : World) :
  getSession amb (setSession amb ck sid w) = Some (mkContext ck sid) /\
  onStart amb (setSession amb ck sid w)
  = [("fallom.config_key", ck); ("fallom.session_id", sid)].
Proof.
  assert (H : match getStore amb (setSession amb ck sid w) with
              | Some c => Some c
              | None => fallbackSession (setSession amb ck sid w)
              end = Some (mkContext ck sid)).
  { unfold setSession, getStore. destruct amb as [l|]; [|reflexivity].
    destruct (stores w !! l) as [old|] eqn:Hl.
    - cbn [stores withFallback withStores].
      rewrite list_lookup_insert_eq by (now apply lookup_lt_Some in Hl).
      reflexivity.
    - cbn [stores withFallback fallbackSession]. now rewrite Hl. }
  split; [exact H|]. unfold onStart. now rewrite H.
Qed.

(** X10: [clearSession] empties the fallback slot only: outside every
    scope [getSession] then returns nothing, and inside a scope it still
    returns the scope's context. *)
Theorem clear_spares_scopes (w : World) :
  getSession None (clearSession w) = None /\
  onStart None (clearSession w) = [] /\
  forall l ctx, stores w !! l = Some ctx ->
    getSession (Some l) (clearSession w) = Some ctx.
Proof.
  split; [reflexivity|]. split; [reflexivity|].
  intros l ctx Hl. unfold getSession, getStore, clearSession.
  cbn [stores withFallback]. now rewrite Hl.
Qed.

Lemma clear_spares_scopes_witness :
  getSession (Some 0) (clearSession (snd (enter "agent-a" "s1" loaded)))
  = Some (mkContext "agent-a" "s1").
Proof.
  refine (proj2 (proj2 (clear_spares_scopes _)) 0 _ _).
  reflexivity.
Defined.

(** X11: a [setSession] made inside a scope is seen from outside once the
    scope has ended: the [getSession] after the [runWithSession] returns the
    context set inside. *)
Theorem scoped_set_leaks
    (ckA sidA ck sid : string) (k : option SessionContext -> prog)
    (w : World) :
  exec (RunWithSession ckA sidA (SetSession ck sid Done) (GetSession k))
       None w
  = exec (RunWithSession ckA sidA (SetSession ck sid Done)
            (k (Some (mkContext ck sid)))) None w.
Proof.
  cbn [exec]. unfold runWithSession. cbn [enter exec].
  unfold getSession at 1. cbn [getStore]. reflexivity.
Qed.

(** *** init *)

Lemma orStr_nonempty (a b : option string) (s : string) :
  orStr a (orStr b None) = Some s -> s <> "".
Proof.
  unfold orStr. destruct a as [x|].
  - destruct (String.eqb_spec x "") as [->|Hx].
    + destruct b as [y|]; [|discriminate].
      destruct (String.eqb_spec y ""); [discriminate|congruence].
    + congruence.
  - destruct b as [y|]; [|discriminate].
    destruct (String.eqb_spec y ""); [discriminate|congruence].
Qed.

(** X12: when the environment variable [FALLOM_CAPTURE_CONTENT] reads
    "false", "0" or "no" in any letter case, [init] turns content capture
    off whatever the [captureContent] option says, also when [init] then
    throws for want of an API key. *)
Theorem env_disables_capture
    (options : InitOptions) (env : Env) (w : World) (e : string) :
  initialized w = false ->
  FALLOM_CAPTURE_CONTENT env = Some e ->
  In (toLowerCase e) ["false"; "0"; "no"] ->
  captureContent (snd (init options env w)) = false.
Proof.
  intros Hi He Hin. unfold init. rewrite Hi, He. cbn [fmap option_fmap option_map].
  assert (Hc : String.eqb (toLowerCase e) "false"
               || String.eqb (toLowerCase e) "0"
               || String.eqb (toLowerCase e) "no" = true).
  { destruct Hin as [<-|[<-|[<-|[]]]]; reflexivity. }
  rewrite Hc. now destruct (orStr _ _).
Qed.

Lemma env_disables_capture_witness :
  captureContent (snd (init captureOn quietEnv loaded)) = false.
Proof.
  apply (env_disables_capture captureOn quietEnv loaded "FALSE");
    [reflexivity | reflexivity | left; reflexivity].
Defined.

(** X13: [init] throws exactly when the module is not initialized and
    neither the option nor the environment gives a non-empty API key; the
    module is then still not initialized, with its session state, SDK and
    handlers untouched, so [init] can be called again. *)
Theorem init_failure (options : InitOptions) (env : Env) (w : World) :
  (fst (init options env w) <> Normal <->
   initialized w = false /\
   orStr (optApiKey options) (orStr (FALLOM_API_KEY env) None) = None) /\
  (fst (init options env w) <> Normal ->
   let w' := snd (init options env w) in
   fst (init options env w) = Threw noApiKeyMessage /\
   initialized w' = false /\ sameSession w w' /\
   sdk w' = sdk w /\ sigtermHandlers w' = sigtermHandlers w /\
   outbox w' = outbox w).
Proof.
  unfold init. destruct (initialized w) eqn:Hi; cbn [fst snd].
  - split; [split|]; [congruence | intros [? _]; congruence | congruence].
  - destruct (orStr (optApiKey options) _) as [k|] eqn:Hk; cbn [fst snd].
    + split; [split|]; [congruence | intros [_ ?]; congruence | congruence].
    + split; [split|]; [auto | discriminate |].
      intros _. repeat split.
Qed.

Lemma init_failure_witness :
  fst (init noInitOptions emptyEnv loaded) = Threw noApiKeyMessage /\
  initialized (snd (init noInitOptions emptyEnv loaded)) = false.
Proof.
  pose proof (proj2 (init_failure noInitOptions emptyEnv loaded)) as H.
  cbv zeta in H.
  destruct H as (H1 & H2 & _); [discriminate|]. now split.
Defined.

(** X29: a first [init] that completes stores a non-empty API key and a
    non-empty base URL, gives the exporter that URL followed by
    "/v1/traces" and that key as bearer token, and, when Traceloop is
    installed, hands it the same URL and key and the stored capture flag. *)
Theorem init_configures (options : InitOptions) (env : Env) (w0 w1 : World) :
  initialized w0 = false ->
  init options env w0 = (Normal, w1) ->
  exists key,
    apiKey w1 = Some key /\ key <> "" /\ baseUrl w1 <> "" /\
    sdk w1 = Some {| exporterUrl := baseUrl w1 ++ "/v1/traces";
                     exporterAuthorization := "Bearer " ++ key |} /\
    (traceloopInstalled env = true ->
     traceloop w1
     = Some {| tlBaseUrl := baseUrl w1 ++ "/v1/traces"; tlApiKey := key;
               tlDisableBatch := false;
               tlTraceContent := captureContent w1 |}) /\
    sameSession w0 w1.
Proof.
  intros H0 H1. unfold init in H1. rewrite H0 in H1.
  destruct (orStr (optApiKey options) _) as [key|] eqn:Hk; [|discriminate].
  injection H1 as <-. exists key. cbn.
  split; [reflexivity|]. split; [exact (orStr_nonempty _ _ _ Hk)|].
  split.
  - destruct (orStr (optBaseUrl options) _) as [b|] eqn:Hb; cbn;
      [|discriminate].
    unfold orStr in Hb.
    destruct (optBaseUrl options) as [x|];
      [destruct (String.eqb_spec x "")|];
      try congruence;
      (destruct (FALLOM_BASE_URL env) as [y|];
       [destruct (String.eqb_spec y "")|]); cbn in Hb; congruence.
  - split; [reflexivity|]. split; [|split; reflexivity].
    now intros ->.
Qed.

Lemma init_configures_witness :
  exists key,
    apiKey (snd (init captureOn quietEnv loaded)) = Some key /\
    key <> "" /\
    baseUrl (snd (init captureOn quietEnv loaded)) <> "" /\
    sdk (snd (init captureOn quietEnv loaded))
    = Some {| exporterUrl :=
                baseUrl (snd (init captureOn quietEnv loaded)) ++ "/v1/traces";
              exporterAuthorization := "Bearer " ++ key |}.
Proof.
  destruct (init_configures captureOn quietEnv loaded _ eq_refl eq_refl)
    as (key & H1 & H2 & H3 & H4 & _).
  exists key. auto.
Defined.

(** X14: after a completed [init], [shutdown] makes the module
    uninitialized again: [span] throws until the next [init], which takes
    its own options and environment and registers one more SIGTERM
    handler. *)
Theorem reinit_after_shutdown
    (o1 o2 : InitOptions) (e1 e2 : Env) (w0 w1 w3 : World) :
  initialized w0 = false ->
  init o1 e1 w0 = (Normal, w1) ->
  init o2 e2 (shutdown w1) = (Normal, w3) ->
  (forall data options amb,
     span data options amb (shutdown w1)
     = (Threw notInitializedMessage, shutdown w1)) /\
  apiKey w3 = orStr (optApiKey o2) (orStr (FALLOM_API_KEY e2) None) /\
  sigtermHandlers w3 = S (S (sigtermHandlers w0)) /\
  sameSession w0 w3.
Proof.
  intros H0 H1 H3. unfold init in H1. rewrite H0 in H1.
  destruct (orStr (optApiKey o1) _) as [k1|]; [|discriminate].
  injection H1 as <-. unfold shutdown in *. cbn [sdk withInitialized] in *.
  split; [reflexivity|].
  unfold init in H3. cbn [initialized withInitialized] in H3.
  destruct (orStr (optApiKey o2) _) as [k2|]; [|discriminate].
  injection H3 as <-. repeat split.
Qed.

Lemma reinit_after_shutdown_witness :
  sigtermHandlers
    (snd (init keyOnly quietEnv (shutdown (snd (init keyOnly emptyEnv loaded)))))
  = 2.
Proof.
  refine (proj1 (proj2 (proj2 (reinit_after_shutdown keyOnly keyOnly emptyEnv
            quietEnv loaded _ _ eq_refl eq_refl eq_refl)))).
Defined.

(** *** span *)

(** X15: [span] never changes the session state.  It returns exactly when
    the module is initialized and both ids, taken from the options or else
    from the session context, are there and not empty, whether the data can
    be serialized or not; when it throws it has issued no request.  When it
    returns it has issued exactly one request, to [baseUrl + "/spans"],
    with non-empty ids and the data as given; unless the data cannot be
    serialized: it returns all the same, and has issued none. *)
Theorem span_effect (serializes : bool) (data : list (string * value))
    (options : SpanOptions) (amb : ambient) (w w' : World) (o : outcome) :
  spanWith serializes data options amb w = (o, w') ->
  sameSession w w' /\
  fst (span data options amb w) = o /\
  (o = Normal ->
     exists ck sid, ck <> "" /\ sid <> "" /\
       w' = if serializes
            then withOutbox w (outbox w ++ [request w ck sid data])
            else w) /\
  (o <> Normal -> w' = w) /\
  (serializes = true -> span data options amb w = (o, w')) /\
  (o = Normal <->
   initialized w = true /\
   is_Some (orStr (spanConfigKey options)
              (orStr (configKey <$> getSession amb w) None)) /\
   is_Some (orStr (spanSessionId options)
              (orStr (sessionId <$> getSession amb w) None))).
Proof.
  unfold spanWith, span, sendSpan, request.
  destruct (initialized w); cbn [negb].
  2: { intros [= <- <-]. repeat split; try congruence.
       intros (? & _); discriminate. }
  destruct (orStr (spanConfigKey options) _) as [ck|] eqn:Hck.
  - destruct (orStr (spanSessionId options) _) as [sid|] eqn:Hsid.
    + intros [= <- <-].
      split; [destruct serializes; split; reflexivity|].
      split; [reflexivity|]. split; [|split; [congruence|split]].
      * intros _. exists ck, sid.
        split; [exact (orStr_nonempty _ _ _ Hck)|].
        split; [exact (orStr_nonempty _ _ _ Hsid)|]. reflexivity.
      * now intros ->.
      * split; eauto.
    + intros [= <- <-]. repeat split; try congruence.
      intros (_ & _ & [? ?]); discriminate.
  - intros [= <- <-]. repeat split; try congruence.
    intros (_ & [? ?] & _); discriminate.
Qed.

Lemma span_effect_witness :
  (exists ck sid, ck <> "" /\ sid <> "" /\
    snd (spanWith true [] noOptions None (setSession None "agent" "s1" ready))
    = withOutbox (setSession None "agent" "s1" ready)
        (outbox (setSession None "agent" "s1" ready)
         ++ [request (setSession None "agent" "s1" ready) ck sid []])) /\
  (exists ck sid, ck <> "" /\ sid <> "" /\
    snd (spanWith false [] noOptions None (setSession None "agent" "s1" ready))
    = setSession None "agent" "s1" ready).
Proof.
  split.
  - refine (proj1 (proj2 (proj2 (span_effect true [] noOptions None
              (setSession None "agent" "s1" ready) _ Normal eq_refl)))
              eq_refl).
  - refine (proj1 (proj2 (proj2 (span_effect false [] noOptions None
              (setSession None "agent" "s1" ready) _ Normal eq_refl)))
              eq_refl).
Defined.

(** X16: after [init], non-empty ids given in the options are the ids of
    the request, whatever the ambient scope and the fallback slot hold. *)
Theorem span_explicit_ids (data : list (string * value)) (ck sid : string)
    (amb : ambient) (w : World) :
  initialized w = true -> ck <> "" -> sid <> "" ->
  span data {| spanConfigKey := Some ck; spanSessionId := Some sid |} amb w
  = (Normal, withOutbox w (outbox w ++ [request w ck sid data])).
Proof.
  intros Hi Hck Hsid. unfold span. rewrite Hi. cbn [negb orStr spanConfigKey
    spanSessionId].
  apply String.eqb_neq in Hck, Hsid. now rewrite Hck, Hsid.
Qed.

Lemma span_explicit_ids_witness :
  span [] {| spanConfigKey := Some "batch"; spanSessionId := Some "job-7" |}
    (Some 0) (snd (enter "agent-a" "s1" ready))
  = (Normal,
     withOutbox (snd (enter "agent-a" "s1" ready))
       (outbox (snd (enter "agent-a" "s1" ready))
        ++ [request (snd (enter "agent-a" "s1" ready)) "batch" "job-7" []])).
Proof. apply span_explicit_ids; [reflexivity | discriminate | discriminate]. Defined.

(** X17: after [init], without ids in the options, the request carries the
    ids [getSession] returns: inside a scope the scope's, whatever the
    fallback slot holds. *)
Theorem span_uses_context (data : list (string * value))
    (amb : ambient) (w : World) (ctx : SessionContext) :
  initialized w = true -> getSession amb w = Some ctx ->
  configKey ctx <> "" -> sessionId ctx <> "" ->
  span data noOptions amb w
  = (Normal,
     withOutbox w
       (outbox w ++ [request w (configKey ctx) (sessionId ctx) data])).
Proof.
  intros Hi Hg Hck Hsid. unfold span. rewrite Hi, Hg.
  cbn [negb orStr noOptions spanConfigKey spanSessionId fmap option_fmap
       option_map].
  apply String.eqb_neq in Hck, Hsid. now rewrite Hck, Hsid.
Qed.

Lemma span_uses_context_witness :
  let w := setSession None "other" "s9" (snd (enter "agent-a" "s1" ready)) in
  span [] noOptions (Some 0) w
  = (Normal, withOutbox w (outbox w ++ [request w "agent-a" "s1" []])).
Proof.
  cbv zeta.
  apply (span_uses_context [] (Some 0) _ (mkContext "agent-a" "s1"));
    [reflexivity | reflexivity | discriminate | discriminate].
Defined.

(** *** Combined init *)

Lemma orStr_settled (a b c : option string) (d : string) :
  d <> "" ->
  orStr (orStr a (orStr b (Some d))) c = orStr a (orStr b (Some d)).
Proof.
  intros Hd. apply String.eqb_neq in Hd.
  unfold orStr.
  destruct a as [x|]; [destruct (String.eqb x "") eqn:Hx|];
    try (now rewrite Hx);
    (destruct b as [y|]; [destruct (String.eqb y "") eqn:Hy|]);
    try (now rewrite Hy); now rewrite Hd.
Qed.

(** X18: the combined [init] of the package initializes tracing exactly
    as a direct call of [trace.init] with the same options does. *)
Theorem fallomInit_as_init (options : InitOptions) (env : Env) (w : World) :
  fallomInit options env w = init options env w.
Proof.
  unfold fallomInit, init.
  cbn [optApiKey optBaseUrl optCaptureContent].
  now rewrite orStr_settled by discriminate.
Qed.

End TraceMoreFacts.

(* ===================================================================== *)
(** ** Isolation of concurrently active scopes *)
(* ===================================================================== *)

Module AsyncFacts.
Import Js Trace Async.















Lemma runSchedule_reachable (schedule : list nat) (c : config) :
  reachable c (runSchedule schedule c).
Proof.
  revert c. induction schedule as [|i schedule IH]; intros c;
    cbn [runSchedule]; [apply rtc_refl|].
  destruct (stepAt i c) as [c'|] eqn:E; [|apply rtc_refl].
  eapply rtc_l; [exists i; exact E | apply IH].
Qed.

(** One interleaving of [twoScopes]: every read returns the context of the
    scope it is made in, across suspension points, in the forked reader, and
    after the other scope has called [setSession]. *)
Example interleaved_run :
  checkpoints
    (trace (runSchedule [0; 1; 1; 0; 1; 1; 0; 0; 1; 2; 0; 1; 2; 0]
              (start loaded twoScopes)))
  = [ (1, Some (mkContext "agent-b" "s2"));
      (0, Some (mkContext "agent-a" "s1"));
      (1, Some (mkContext "agent-b" "s2-renewed"));
      (0, Some (mkContext "agent-a" "s1"));
      (0, Some (mkContext "agent-a" "s1")) ].
Proof. vm_compute. reflexivity. Qed.



End AsyncFacts.

(* ===================================================================== *)
(** ** Last write wins on the fallback slot *)
(* ===================================================================== *)

Module AsyncMoreFacts.
Import Js Trace Async AsyncMore.

Lemma span_fallback (data : list (string * value)) (options : SpanOptions)
    (amb : ambient) (w : World) :
  fallbackSession (snd (span data options amb w)) = fallbackSession w.
Proof.
  unfold span. destruct (negb (initialized w)); [reflexivity|].
  destruct (orStr (spanConfigKey options) _); [|reflexivity].
  destruct (orStr (spanSessionId options) _); reflexivity.
Qed.

Lemma stepTask_fallback (init : option SessionContext) (t : task)
    (w : World) (tr : list event) (e : effect) :
  stepTask t w = Some e ->
  fallbackSession w = fallbackAfter init tr ->
  fallbackSession (after e) = fallbackAfter init (emitted e ++ tr).
Proof.
  intros He Hf. destruct t as [|[amb p] rest]; [discriminate|].
  cbn [stepTask] in He. injection He as <-.
  destruct p as [|k|ck sid k|k|ck sid body k|data options k|k|child k];
    cbn [emitted after app fallbackAfter enter]; try assumption;
    try reflexivity.
  - pose proof (span_fallback data options amb w) as Hs.
    destruct (span data options amb w) as [[|m] w1];
      cbn [emitted after app snd] in *; congruence.
Qed.

Lemma stepTask_outside (init : option SessionContext) (t : task)
    (w : World) (tr : list event) (e : effect) :
  stepTask t w = Some e ->
  fallbackSession w = fallbackAfter init tr ->
  outsideReads init tr -> outsideReads init (emitted e ++ tr).
Proof.
  intros He Hf Ho. destruct t as [|[amb p] rest]; [discriminate|].
  cbn [stepTask] in He. injection He as <-.
  destruct p as [|k|ck sid k|k|ck sid body k|data options k|k|child k];
    cbn [emitted app outsideReads enter]; try assumption.
  - destruct amb as [l|]; [assumption|]. split; [exact Hf | assumption].
  - now destruct (span data options amb w) as [[|m] w1].
Qed.

Lemma reachable_fallback (init : option SessionContext) (c c' : config) :
  reachable c c' ->
  fallbackSession (world c) = fallbackAfter init (trace c) /\
  outsideReads init (trace c) ->
  fallbackSession (world c') = fallbackAfter init (trace c') /\
  outsideReads init (trace c').
Proof.
  induction 1 as [c|c c1 c2 [i Hstep] _ IH]; [auto|].
  intros [Hf Ho]. apply IH. clear IH.
  unfold stepAt in Hstep.
  destruct (pool c !! i) as [t|]; [|discriminate].
  destruct (stepTask t (world c)) as [e|] eqn:He; [|discriminate].
  injection Hstep as <-. cbn [world trace]. split.
  - exact (stepTask_fallback init t _ _ e He Hf).
  - exact (stepTask_outside init t _ _ e He Hf Ho).
Qed.

Lemma outsideReads_at (init : option SessionContext)
    (newer older : list event) (r : option SessionContext) :
  outsideReads init (newer ++ Got None r :: older) ->
  r = fallbackAfter init older.
Proof.
  induction newer as [|e newer IH]; cbn [app outsideReads].
  - now intros [H _].
  - destruct e as [l' ctx|amb ctx| |[l'|] r']; try exact IH.
    intros [_ H]. now apply IH.
Qed.

(** X19: however the chains are interleaved, a [getSession] made outside
    every scope returns the context of the most recent [setSession] made by
    any chain, inside a scope or not, unless [clearSession] was called
    since, and the initial fallback when there was neither: the last writer
    wins. *)
Theorem fallback_last_write_wins
    (w : World) (programs : list prog) (c : config)
    (newer older : list event) (r : option SessionContext) :
  reachable (start w programs) c ->
  trace c = (newer ++ Got None r :: older)%list ->
  r = fallbackAfter (fallbackSession w) older /\
  fallbackSession (world c) = fallbackAfter (fallbackSession w) (trace c).
Proof.
  intros Hreach Htr.
  destruct (reachable_fallback (fallbackSession w) _ _ Hreach) as [Hf Ho].
  { split; [reflexivity | exact I]. }
  split; [|exact Hf]. rewrite Htr in Ho. now apply outsideReads_at in Ho.
Qed.

Lemma fallback_last_write_wins_witness :
  let c := runSchedule [0; 0; 1; 1; 0] (start loaded racingSetters) in
  Some (mkContext "agent-b" "s2")
  = fallbackAfter None
      [ SetIn (Some 0) (mkContext "agent-b" "s2");
        Entered 0 (mkContext "agent-b" "s0");
        SetIn None (mkContext "agent-a" "s1") ] /\
  fallbackSession (world c) = fallbackAfter None (trace c).
Proof.
  cbv zeta.
  refine (fallback_last_write_wins loaded racingSetters
            (runSchedule [0; 0; 1; 1; 0] (start loaded racingSetters))
            [] _ _ (AsyncFacts.runSchedule_reachable _ _) _).
  vm_compute. reflexivity.
Defined.

End AsyncMoreFacts.

(* ===================================================================== *)
(** ** Content capture in the wrappers *)
(* ===================================================================== *)

Module WrappersFacts.
Import Js Wrappers.

Lemma lookup_setWhen_ne (c : bool) (k k' : string) (a : attr)
    (m : attributes) :
  k <> k' -> setWhen c k a m !! k' = m !! k'.
Proof.
  intros H. unfold setWhen. destruct c; [|reflexivity].
  now apply lookup_insert_ne.
Qed.

Lemma lookup_setWhen_eq (k : string) (a : attr) (m : attributes) :
  setWhen true k a m !! k = Some a.
Proof. apply lookup_insert_eq. Qed.

(** The usage lines touch no content key. *)
Lemma lookup_withUsage_other (usage pm : value) (m : attributes) (k : string) :
  k <> "fallom.raw.usage" -> k <> "fallom.raw.providerMetadata" ->
  withUsage usage pm m !! k = m !! k.
Proof.
  intros H1 H2. unfold withUsage.
  rewrite !lookup_setWhen_ne by congruence. reflexivity.
Qed.

(** Usage is recorded whenever it is reported. *)
Lemma lookup_withUsage_usage (usage pm : value) (m : attributes) :
  truthy usage = true ->
  withUsage usage pm m !! "fallom.raw.usage" = Some (AStringified usage).
Proof.
  intros H. unfold withUsage.
  rewrite lookup_setWhen_ne by discriminate.
  rewrite H. apply lookup_setWhen_eq.
Qed.

(** With content capture off, the spans of completed generateText,
    generateObject and streamObject calls carry no request or response
    attribute, and they carry the usage whenever the call reported one. *)
Lemma success_spans_private
    (ctx : SessionCtx) (env : CallEnv) (arg result : value)
    (info : ProviderInfo) (s : Stream) :
  shouldCaptureContent env = false ->
  Forall (fun sp => contentFree (span_attributes sp) /\
                    (truthy (get result "usage") = true ->
                     span_attributes sp !! "fallom.raw.usage"
                     = Some (AStringified (get result "usage"))))
    (fst (createGenerateTextWrapper ctx env arg (Resolved result))
     ++ fst (createGenerateObjectWrapper ctx env arg (Resolved result))) /\
  Forall (fun sp => contentFree (span_attributes sp) /\
                    (truthy (rawUsage s) = true ->
                     span_attributes sp !! "fallom.raw.usage"
                     = Some (AStringified (rawUsage s))))
    (createStreamObjectWrapper ctx env arg result info s).
Proof.
  intros Hc. split.
  - unfold createGenerateTextWrapper, createGenerateObjectWrapper.
    destruct (isInitialized env); cbn [negb]; [|constructor].
    unfold generateTextAttributes, generateObjectAttributes.
    rewrite Hc. cbn [fmap option_fmap option_map fst app].
    repeat constructor; cbn [span_attributes okSpan];
      try (rewrite lookup_withUsage_other by discriminate; reflexivity);
      apply lookup_withUsage_usage.
  - unfold createStreamObjectWrapper.
    destruct (isInitialized env); cbn [negb]; [|constructor].
    destruct (truthy (get result "usage")); [|constructor].
    unfold streamObjectAttributes. rewrite Hc.
    repeat constructor; cbn [span_attributes okSpan].
    + rewrite lookup_setWhen_ne by discriminate.
      rewrite lookup_withUsage_other by discriminate.
      apply lookup_union_None. split; [|reflexivity].
      unfold providerInfoToAttributes.
      destruct (providerRaw info) as [[|f fs]|];
        rewrite ?lookup_insert_ne by discriminate;
        rewrite !lookup_setWhen_ne by discriminate; reflexivity.
    + rewrite lookup_setWhen_ne by discriminate.
      rewrite lookup_withUsage_other by discriminate.
      apply lookup_union_None. split; [|reflexivity].
      unfold providerInfoToAttributes.
      destruct (providerRaw info) as [[|f fs]|];
        rewrite ?lookup_insert_ne by discriminate;
        rewrite !lookup_setWhen_ne by discriminate; reflexivity.
    + intros Hu. rewrite lookup_setWhen_ne by discriminate.
      now apply lookup_withUsage_usage.
Qed.

(** The error span of generateText carries the request whatever the
    capture flag says. *)
Lemma generateText_error_span (ctx : SessionCtx) (env : CallEnv)
    (arg error : value) :
  isInitialized env = true ->
  exists sp,
    fst (createGenerateTextWrapper ctx env arg (Rejected error)) = [sp] /\
    status sp = "ERROR" /\
    is_Some (span_attributes sp !! "fallom.raw.request").
Proof.
  intros Hi. unfold createGenerateTextWrapper. rewrite Hi. cbn [negb fst].
  eexists. split; [reflexivity|]. split; [reflexivity|].
  cbn [span_attributes errorSpan]. unfold generateTextErrorAttributes.
  rewrite lookup_insert_eq. eauto.
Qed.

(** The error spans of the sibling wrappers carry no content. *)
Lemma sibling_error_spans_private :
  contentFree generateObjectErrorAttributes /\
  contentFree streamObjectErrorAttributes.
Proof. repeat split. Qed.

(** C7: the claim is that with content capture off no span built on call
    completion carries request content.  With capture off, a generateText
    call that fails with a rate-limit error sends an ERROR span whose
    attributes hold [fallom.raw.request] with the prompt; the generateObject
    wrapper on the same call sends none. *)
Theorem generateText_error_leaks_request :
  shouldCaptureContent privateEnv = false /\
  map (fun sp => (status sp, span_attributes sp !! "fallom.raw.request"))
    (fst (createGenerateTextWrapper someSession privateEnv secretParams
            (Rejected rateLimited)))
  = [ ("ERROR",
       Some (AStringified
               (VObj [ ("prompt", VStr "my secret prompt");
                       ("messages", VUndefined); ("system", VUndefined);
                       ("model", VStr "gpt-4o") ]))) ] /\
  map (fun sp => (status sp, span_attributes sp !! "fallom.raw.request"))
    (fst (createGenerateObjectWrapper someSession privateEnv secretParams
            (Rejected rateLimited)))
  = [ ("ERROR", None) ].
Proof. vm_compute. repeat split. Qed.

End WrappersFacts.

(* ===================================================================== *)
(** ** More properties of the wrappers *)
(* ===================================================================== *)

Module WrappersMore.
Import Js Trace Wrappers Provider WrappersFacts.

(** *** Provider detection *)







Lemma setWhen_keys (c : bool) (k : string) (a : attr) (m : attributes)
    (keys : list string) :
  In k keys ->
  (forall j, is_Some (m !! j) -> In j keys) ->
  forall j, is_Some (setWhen c k a m !! j) -> In j keys.
Proof.
  intros Hk Hm j. unfold setWhen. destruct c; [|apply Hm].
  destruct (decide (k = j)) as [<-|Hne]; [auto|].
  rewrite lookup_insert_ne by assumption. apply Hm.
Qed.

(** X23: [providerInfoToAttributes] writes nothing but the five provider
    attributes, so never a request or response attribute. *)
Theorem provider_attributes_only (info : ProviderInfo) (k : string) :
  is_Some (providerInfoToAttributes info !! k) -> In k providerKeys.
Proof.
  unfold providerInfoToAttributes.
  assert (H4 : forall j,
    is_Some (setWhen (truthy (aiSdkVersion info)) "fallom.ai_sdk_version"
               (attrOf (aiSdkVersion info))
               (setWhen (truthy (providerBaseUrl info)) "fallom.base_url"
                  (attrOf (providerBaseUrl info))
                  (setWhen (truthy (providerId info)) "fallom.provider_id"
                     (attrOf (providerId info))
                     (setWhen (truthy (provider info)) "fallom.provider"
                        (attrOf (provider info)) ∅))) !! j) ->
    In j providerKeys).
  { repeat (apply setWhen_keys; [cbn; tauto|]).
    intros j [x Hx]. now rewrite lookup_empty in Hx. }
  destruct (providerRaw info) as [[|f fs]|]; try apply H4.
  destruct (decide ("fallom.provider_raw" = k)) as [<-|Hne];
    [cbn; tauto|].
  rewrite lookup_insert_ne by assumption. apply H4.
Qed.

Lemma provider_attributes_only_witness :
  In "fallom.provider" providerKeys.
Proof.
  apply (provider_attributes_only
           (fst (extractProviderInfo routedModel VUndefined VUndefined))).
  vm_compute. eauto.
Defined.

(** *** The attribute names of a success span *)

Lemma setWhen_is_Some (c : bool) (k j : string) (a : attr) (m : attributes) :
  is_Some (setWhen c k a m !! j) <->
  (c = true /\ k = j) \/ is_Some (m !! j).
Proof.
  unfold setWhen. destruct c.
  - rewrite lookup_insert_is_Some.
    destruct (decide (k = j)); intuition congruence.
  - intuition congruence.
Qed.

Lemma withUsage_is_Some (usage pm : value) (m : attributes) (j : string) :
  is_Some (withUsage usage pm m !! j) <->
  (truthy pm = true /\ j = "fallom.raw.providerMetadata") \/
  (truthy usage = true /\ j = "fallom.raw.usage") \/
  is_Some (m !! j).
Proof.
  unfold withUsage. rewrite !setWhen_is_Some.
  intuition (subst; auto).
Qed.

Lemma insert_is_Some (k j : string) (a : attr) (m : attributes) :
  is_Some (<[k := a]> m !! j) <-> k = j \/ is_Some (m !! j).
Proof.
  rewrite lookup_insert_is_Some. destruct (decide (k = j)); tauto.
Qed.

Lemma no_attribute : is_Some (@None attr) <-> False.
Proof. split; [apply is_Some_None | tauto]. Qed.

(** X26: the attributes of a generateObject success span are exactly the
    SDK version and the method, the request and the response when content
    capture is on, the usage when the result reports one, and the provider
    metadata when the result has some. *)
Theorem generateObject_keys (capture : bool)
    (params result modelId : value) (k : string) :
  is_Some (generateObjectAttributes capture params result modelId !! k) <->
  k = "fallom.sdk_version" \/ k = "fallom.method" \/
  (capture = true /\ (k = "fallom.raw.request" \/ k = "fallom.raw.response")) \/
  (truthy (get result "usage") = true /\ k = "fallom.raw.usage") \/
  (truthy (get result "experimental_providerMetadata") = true /\
   k = "fallom.raw.providerMetadata").
Proof.
  unfold generateObjectAttributes. rewrite withUsage_is_Some.
  destruct capture; rewrite !insert_is_Some, lookup_empty, no_attribute;
    intuition (subst; auto; congruence).
Qed.

(** X27: the same for a generateText success span, which exists when the
    steps of the result could be copied. *)
Theorem generateText_keys (capture : bool)
    (params result modelId : value) (attrs : attributes) (k : string) :
  generateTextAttributes capture params result modelId = Some attrs ->
  (is_Some (attrs !! k) <->
   k = "fallom.sdk_version" \/ k = "fallom.method" \/
   (capture = true /\
    (k = "fallom.raw.request" \/ k = "fallom.raw.response")) \/
   (truthy (get result "usage") = true /\ k = "fallom.raw.usage") \/
   (truthy (get result "experimental_providerMetadata") = true /\
    k = "fallom.raw.providerMetadata")).
Proof.
  unfold generateTextAttributes. destruct capture.
  - destruct (mapSteps (get result "steps")) as [steps|];
      cbn [fmap option_fmap option_map]; [|discriminate].
    intros [= <-].
    rewrite withUsage_is_Some, !insert_is_Some, lookup_empty, no_attribute.
    intuition (subst; auto; congruence).
  - cbn [fmap option_fmap option_map]. intros [= <-].
    rewrite withUsage_is_Some, !insert_is_Some, lookup_empty, no_attribute.
    intuition (subst; auto; congruence).
Qed.

Lemma generateText_keys_witness :
  is_Some (span_attributes
             (okSpan someSession privateEnv "generateText" (VStr "gpt-4o")
                false
                (default ∅ (generateTextAttributes false secretParams
                              (VObj [("usage", VObj [("totalTokens", VNum 7)])])
                              (VStr "gpt-4o")))
                false) !! "fallom.raw.usage").
Proof.
  cbn [span_attributes okSpan].
  apply (proj2 (generateText_keys false secretParams
                  (VObj [("usage", VObj [("totalTokens", VNum 7)])])
                  (VStr "gpt-4o") _ "fallom.raw.usage" eq_refl)).
  right. right. right. left. split; reflexivity.
Defined.

(** X28: the attributes of the OK span of streamObject are exactly the
    SDK version, the method and the streaming flag, what the provider info
    gives, the request when content capture is on, the response when
    capture is on and the stream produced an object or a finish reason, the
    usage when the stream reported one, the provider metadata when there is
    some, and the sanitized metadata unless serializing it threw. *)
Theorem streamObject_keys (capture : bool) (params result modelId : value)
    (info : ProviderInfo) (s : Stream) (k : string) :
  is_Some (streamObjectAttributes capture params result modelId info s !! k)
  <->
  k = "fallom.sdk_version" \/ k = "fallom.method" \/
  k = "fallom.is_streaming" \/
  is_Some (providerInfoToAttributes info !! k) \/
  (capture = true /\ k = "fallom.raw.request") \/
  (capture = true /\
   truthy (responseObject s) || truthy (finishReason s) = true /\
   k = "fallom.raw.response") \/
  (truthy (rawUsage s) = true /\ k = "fallom.raw.usage") \/
  (truthy (providerMetadata s) = true /\ k = "fallom.raw.providerMetadata") \/
  (metadataSerialized s = true /\ k = "fallom.raw.metadata").
Proof.
  unfold streamObjectAttributes.
  rewrite setWhen_is_Some, withUsage_is_Some.
  destruct capture;
    rewrite ?setWhen_is_Some, ?insert_is_Some, lookup_union_is_Some,
      !insert_is_Some, lookup_empty, no_attribute;
    intuition (subst; auto; congruence).
Qed.

End WrappersMore.
